(** * Reconciliation of an Azure web-app deployment slot

    A shallow embedding of [library/azure_rm_webapp_slot.py]: the class
    [AzureRMWebAppSlots] with its [exec_module] orchestrator, the two diff
    helpers [is_site_config_changed] and [is_app_settings_changed], and the
    gateway wrappers [set_slot_state] and [swap_slot].

    Python dictionaries are finite maps ([gmap]); the order in which a
    dictionary's keys are iterated is made explicit as a list wherever the
    source loops over [.keys()].  Strings are ASCII strings. *)

From Stdlib Require Import String Ascii NArith List Bool.
From stdpp Require Import gmap strings list fin_maps.

Open Scope string_scope.

(** ** Python string helpers *)

Module Py.

(** [str.upper] and [str.lower], on ASCII letters. *)
Definition upper_ascii (c : ascii) : ascii :=
  let n := N_of_ascii c in
  if ((97 <=? n) && (n <=? 122))%N then ascii_of_N (n - 32) else c.

Definition lower_ascii (c : ascii) : ascii :=
  let n := N_of_ascii c in
  if ((65 <=? n) && (n <=? 90))%N then ascii_of_N (n + 32) else c.

Fixpoint upper (s : string) : string :=
  match s with
  | EmptyString => EmptyString
  | String c s' => String (upper_ascii c) (upper s')
  end.

Fixpoint lower (s : string) : string :=
  match s with
  | EmptyString => EmptyString
  | String c s' => String (lower_ascii c) (lower s')
  end.

(** Truth value of a string: only the empty string is falsy. *)
Definition truthy (s : string) : bool := negb (String.eqb s "").

(** Truth value of [d.get(k)] and of an optional string: [None] and the
    empty string are falsy. *)
Definition truthy_opt (o : option string) : bool :=
  match o with
  | Some s => truthy s
  | None => false
  end.

(** [x in l] for a list of strings. *)
Definition mem (x : string) (l : list string) : bool :=
  existsb (String.eqb x) l.

End Py.

(** ** The settings diff: [is_app_settings_changed]

    [app_settings] is [self.app_settings], [properties] is
    [self.app_settings_strDic.properties], and [keys] is the order in which
    [self.app_settings.keys()] yields the keys. *)

Abbreviation settings := (gmap string string).

(** The body of the [for key in self.app_settings.keys()] loop: the first
    key whose observed value is falsy or differs returns [True]. *)
Fixpoint app_settings_loop (app_settings properties : settings)
    (keys : list string) : bool :=
  match keys with
  | [] => false
  | key :: rest =>
      if negb (Py.truthy_opt (properties !! key))
         || negb (bool_decide (app_settings !! key = properties !! key))
      then true
      else app_settings_loop app_settings properties rest
  end.

Definition is_app_settings_changed (keys : list string)
    (app_settings properties : settings) : bool :=
  if negb (bool_decide (app_settings = ∅)) then
    if negb (size properties =? size app_settings)%nat then true
    else if negb (bool_decide (properties = ∅)) && (0 <? size properties)%nat
    then app_settings_loop app_settings properties keys
    else false
  else false.

(** The order in which a dictionary yields its keys is some permutation of
    its key set. *)
Definition key_order (keys : list string) (d : settings) : Prop :=
  keys ≡ₚ (map_to_list d).*1.

(** ** The site-config diff: [is_site_config_changed]

    [site_config] is the dictionary [self.site_config]; [existing_config]
    is the configuration object returned by the gateway, read as the map
    from attribute names to their values (an attribute that is [None] is
    absent from the map). *)

Definition site_config_updatable_frameworks : list string :=
  ["net_framework_version"; "java_version"; "php_version";
   "python_version"; "scm_type"].

Definition supported_linux_frameworks : list string :=
  ["ruby"; "php"; "dotnetcore"; "node"; "java"].

Definition supported_windows_frameworks : list string :=
  ["net_framework"; "php"; "python"; "node"; "java"].

(** [self.auto_swap_slot_name]: [None], [False] or a slot name. *)
Inductive auto_swap :=
| AutoSwapNone
| AutoSwapFalse
| AutoSwapName (slot : string).

Definition auto_swap_truthy (a : auto_swap) : bool :=
  match a with
  | AutoSwapName s => Py.truthy s
  | _ => false
  end.

Fixpoint updatable_frameworks_loop (site_config existing_config : settings)
    (fx_versions : list string) : bool :=
  match fx_versions with
  | [] => false
  | fx_version :: rest =>
      if Py.truthy_opt (site_config !! fx_version)
         && (negb (Py.truthy_opt (existing_config !! fx_version))
             || negb (bool_decide (Py.upper <$> existing_config !! fx_version
                                   = Py.upper <$> site_config !! fx_version)))
      then true
      else updatable_frameworks_loop site_config existing_config rest
  end.

Definition is_site_config_changed (auto_swap_slot_name : auto_swap)
    (site_config existing_config : settings) : bool :=
  if updatable_frameworks_loop site_config existing_config
       site_config_updatable_frameworks
  then true
  else
    match auto_swap_slot_name with
    | AutoSwapFalse =>
        bool_decide (existing_config !! "auto_swap_slot_name" ≠ None)
    | AutoSwapName s =>
        Py.truthy s
        && negb (bool_decide (Some s = existing_config !! "auto_swap_slot_name"))
    | AutoSwapNone => false
    end.

(** ** The module object and the remote side *)

Inductive state_choice := Present | Absent.
Inductive app_state_choice := Started | Stopped | Restarted.
Inductive swap_action := Preview | Swap | Reset.

Definition app_state_eqb (a b : app_state_choice) : bool :=
  match a, b with
  | Started, Started | Stopped, Stopped | Restarted, Restarted => true
  | _, _ => false
  end.

Record swap_request := {
  action : option swap_action;
  target_slot : option string
}.

Record framework_settings := {
  java_container : string;
  java_container_version : string
}.

Record framework := {
  fx_name : string;
  fx_version : string;
  fx_settings : option framework_settings
}.

Record container := {
  container_name : string;
  registry_server_url : option string;
  registry_server_user : option string;
  registry_server_password : option string
}.

Inductive Actions := NoAction | CreateOrUpdate | UpdateAppSettings | Delete.

(** The attributes of [self] that [exec_module] only reads, as they stand
    once the loop over [kwargs] has run. *)
Record module := {
  name : string;
  location : option string;
  state : state_choice;
  frameworks : option (list framework);
  container_settings : option container;
  scm_type : option string;
  app_settings : option settings;
  purge_app_settings : bool;
  app_state : app_state_choice;
  swap : option swap_request;
  tags : option settings;
  auto_swap_slot_name : auto_swap;
  check_mode : bool
}.

(** What [slot_to_dict] keeps of a slot. *)
Record slot_record := {
  slot_id : string;
  slot_state : option string;
  slot_tags : option settings
}.

(** The envelope handed to [create_or_update_slot]: [self.site], whose
    [site_config] is the very dictionary [self.site_config]; the entry
    [app_settings] of that dictionary, a list of name/value pairs, is kept
    apart from its string entries. *)
Record site := {
  site_location : option string;
  site_site_config : settings;
  site_app_settings : option (list (string * string));
  site_tags : option settings
}.

(** Calls that reach the remote management plane. *)
Inductive call :=
| GetResourceGroup
| GetWebApp
| GetSlot
| GetConfigurationSlot
| ListApplicationSettingsSlot
| CreateOrUpdateSlot (site_envelope : site)
| DeleteSlot
| StartSlot
| StopSlot
| RestartSlot
| SwapSlotWithProduction
| SwapSlotSlot (target : string)
| ApplySlotConfigToProduction
| ApplySlotConfigurationSlot (target : string)
| ResetProductionSlotConfig
| ResetSlotConfigurationSlot (slot : string).

Definition is_lookup (c : call) : bool :=
  match c with
  | GetResourceGroup | GetWebApp | GetSlot
  | GetConfigurationSlot | ListApplicationSettingsSlot => true
  | _ => false
  end.

Definition is_mutation (c : call) : bool := negb (is_lookup c).

Definition is_delete (c : call) : bool :=
  match c with DeleteSlot => true | _ => false end.


(** The answers of the remote side during one invocation.  [is_linux] and
    [old_plan] are names the source reads without binding them; their
    values are taken from here.  A lookup that raises [CloudError] is
    [None]; [cloud_error] tells which of the other calls raise it. *)
Record remote := {
  resource_group_location : option string;
  is_linux : bool;
  old_plan_is_linux : bool;
  webapp : bool;
  slot : option slot_record;
  configuration : option settings;
  application_settings : option settings;
  created_slot : option slot_record;
  cloud_error : call → bool
}.

(** The reasons for which [self.fail] is called. *)
Inductive failure :=
| ResourceGroupLookupFailed
| WebAppDoesNotExist
| JavaMutuallyExclusive
| OneFrameworkOnlyForLinux
| UnsupportedLinuxFramework (fx : string)
| LinuxSupportsJava8Only
| LinuxSupportsTomcatOnly
| UnsupportedWindowsFramework (fx : string)
| ErrorCreatingSlot
| ErrorDeletingSlot
| FailedToSwap.

(** The failures raised by the checks of the desired configuration. *)
Definition is_validation_error (f : failure) : bool :=
  match f with
  | JavaMutuallyExclusive | OneFrameworkOnlyForLinux
  | UnsupportedLinuxFramework _ | LinuxSupportsJava8Only
  | LinuxSupportsTomcatOnly | UnsupportedWindowsFramework _ => true
  | _ => false
  end.

(** Exceptions of the interpreter that nothing catches. *)
Inductive py_error := AttributeError | UnboundLocalError | IndexError.

(** ** State and control of one invocation

    [exec_module] updates attributes of [self], calls the gateway, may stop
    through [self.fail], through an uncaught exception or through an early
    [return self.results]; the state below holds the attributes it writes
    and the calls issued so far. *)

Record self_state := {
  s_location : option string;
  s_site_config : settings;
  s_site_app_settings : option (list (string * string));
  s_app_settings : settings;
  s_site_tags : option settings;
  s_app_settings_strDic : option settings;
  s_to_do : Actions;
  s_changed : bool;
  s_id : option string;
  s_calls : list call
}.

(** How an invocation stops before the end of [exec_module]: an early
    [return self.results], [self.fail], or an uncaught exception. *)
Inductive stop :=
| Returned
| Failed (f : failure)
| Raised (e : py_error).

Inductive result (A : Type) :=
| Ok (a : A)
| Stop (w : stop).

Arguments Ok {A} a.
Arguments Stop {A} w.

Definition M (A : Type) : Type := self_state → result A * self_state.

Global Instance M_ret : MRet M := λ A a s, (Ok a, s).

Global Instance M_bind : MBind M := λ A B k c s,
  match c s with
  | (Ok a, s') => k a s'
  | (Stop w, s') => (Stop w, s')
  end.

Definition fail {A} (f : failure) : M A := λ s, (Stop (Failed f), s).
Definition raise {A} (e : py_error) : M A := λ s, (Stop (Raised e), s).
(** [return self.results] before the end of the function. *)
Definition return_results {A} : M A := λ s, (Stop Returned, s).
Definition get : M self_state := λ s, (Ok s, s).
Definition modify (f : self_state → self_state) : M unit := λ s, (Ok tt, f s).
Definition when (b : bool) (c : M unit) : M unit := if b then c else mret tt.

Fixpoint for_each {A} (l : list A) (body : A → M unit) : M unit :=
  match l with
  | [] => mret tt
  | x :: rest => body x;; for_each rest body
  end.

Definition set_location (v : option string) (s : self_state) : self_state :=
  {| s_location := v; s_site_config := s_site_config s;
     s_site_app_settings := s_site_app_settings s;
     s_app_settings := s_app_settings s; s_site_tags := s_site_tags s;
     s_app_settings_strDic := s_app_settings_strDic s; s_to_do := s_to_do s;
     s_changed := s_changed s; s_id := s_id s; s_calls := s_calls s |}.

Definition set_site_config (k v : string) (s : self_state) : self_state :=
  {| s_location := s_location s; s_site_config := <[k := v]> (s_site_config s);
     s_site_app_settings := s_site_app_settings s;
     s_app_settings := s_app_settings s; s_site_tags := s_site_tags s;
     s_app_settings_strDic := s_app_settings_strDic s; s_to_do := s_to_do s;
     s_changed := s_changed s; s_id := s_id s; s_calls := s_calls s |}.

Definition set_site_app_settings (v : list (string * string))
    (s : self_state) : self_state :=
  {| s_location := s_location s; s_site_config := s_site_config s;
     s_site_app_settings := Some v;
     s_app_settings := s_app_settings s; s_site_tags := s_site_tags s;
     s_app_settings_strDic := s_app_settings_strDic s; s_to_do := s_to_do s;
     s_changed := s_changed s; s_id := s_id s; s_calls := s_calls s |}.

Definition set_app_setting (k v : string) (s : self_state) : self_state :=
  {| s_location := s_location s; s_site_config := s_site_config s;
     s_site_app_settings := s_site_app_settings s;
     s_app_settings := <[k := v]> (s_app_settings s);
     s_site_tags := s_site_tags s;
     s_app_settings_strDic := s_app_settings_strDic s; s_to_do := s_to_do s;
     s_changed := s_changed s; s_id := s_id s; s_calls := s_calls s |}.

Definition set_site_tags (v : option settings) (s : self_state) : self_state :=
  {| s_location := s_location s; s_site_config := s_site_config s;
     s_site_app_settings := s_site_app_settings s;
     s_app_settings := s_app_settings s; s_site_tags := v;
     s_app_settings_strDic := s_app_settings_strDic s; s_to_do := s_to_do s;
     s_changed := s_changed s; s_id := s_id s; s_calls := s_calls s |}.

Definition set_app_settings_strDic (v : option settings)
    (s : self_state) : self_state :=
  {| s_location := s_location s; s_site_config := s_site_config s;
     s_site_app_settings := s_site_app_settings s;
     s_app_settings := s_app_settings s; s_site_tags := s_site_tags s;
     s_app_settings_strDic := v; s_to_do := s_to_do s;
     s_changed := s_changed s; s_id := s_id s; s_calls := s_calls s |}.

Definition set_to_do (v : Actions) (s : self_state) : self_state :=
  {| s_location := s_location s; s_site_config := s_site_config s;
     s_site_app_settings := s_site_app_settings s;
     s_app_settings := s_app_settings s; s_site_tags := s_site_tags s;
     s_app_settings_strDic := s_app_settings_strDic s; s_to_do := v;
     s_changed := s_changed s; s_id := s_id s; s_calls := s_calls s |}.

Definition set_changed (v : bool) (s : self_state) : self_state :=
  {| s_location := s_location s; s_site_config := s_site_config s;
     s_site_app_settings := s_site_app_settings s;
     s_app_settings := s_app_settings s; s_site_tags := s_site_tags s;
     s_app_settings_strDic := s_app_settings_strDic s; s_to_do := s_to_do s;
     s_changed := v; s_id := s_id s; s_calls := s_calls s |}.

Definition set_id (v : option string) (s : self_state) : self_state :=
  {| s_location := s_location s; s_site_config := s_site_config s;
     s_site_app_settings := s_site_app_settings s;
     s_app_settings := s_app_settings s; s_site_tags := s_site_tags s;
     s_app_settings_strDic := s_app_settings_strDic s; s_to_do := s_to_do s;
     s_changed := s_changed s; s_id := v; s_calls := s_calls s |}.

Definition add_call (c : call) (s : self_state) : self_state :=
  {| s_location := s_location s; s_site_config := s_site_config s;
     s_site_app_settings := s_site_app_settings s;
     s_app_settings := s_app_settings s; s_site_tags := s_site_tags s;
     s_app_settings_strDic := s_app_settings_strDic s; s_to_do := s_to_do s;
     s_changed := s_changed s; s_id := s_id s; s_calls := s_calls s ++ [c] |}.

(** A call issued to the gateway is appended to the record of calls. *)
Definition issue (c : call) : M unit := modify (add_call c).

(** ** The class [AzureRMWebAppSlots] *)

Section AzureRMWebAppSlots.

(** [update_tags] belongs to the base class: from the desired tags and
    the tags of the existing slot it gives the changed flag and the
    merged tags. *)
Variable update_tags :
  option settings → option settings → bool * option settings.
Variable self : module.
Variable env : remote.

(** State of [self] on entry of [exec_module], after the loop over
    [kwargs]: of the keys that are no attribute of [self], only
    [scm_type] is kept, in [self.site_config].  [self.app_settings] is
    held as a dictionary from the start: line 585 replaces a missing one
    by [dict()] before its first use. *)
Definition initial_state : self_state :=
  {| s_location := location self;
     s_site_config :=
       match scm_type self with
       | Some v => {["scm_type" := v]}
       | None => ∅
       end;
     s_site_app_settings := None;
     s_app_settings := default ∅ (app_settings self);
     s_site_tags := None;
     s_app_settings_strDic := None;
     s_to_do := NoAction;
     s_changed := false;
     s_id := None;
     s_calls := [] |}.

(** *** Gateway wrappers *)

Definition get_resource_group : M (option string) :=
  issue GetResourceGroup;;
  match resource_group_location env with
  | Some l => mret (Some l)
  | None => fail ResourceGroupLookupFailed
  end.

Definition get_webapp : M bool :=
  issue GetWebApp;; mret (webapp env).

Definition get_slot : M (option slot_record) :=
  issue GetSlot;; mret (slot env).

Definition get_configuration : M (option settings) :=
  issue GetConfigurationSlot;; mret (configuration env).

(** [self.slot]: an attribute that nothing in the class creates, so that
    reading it raises [AttributeError]. *)
Definition self_slot : M string := raise AttributeError.

(** Line 865 reads [self.slot] to build the arguments of the listing,
    where the other wrappers pass [self.name]: the wrapper raises before
    the gateway is reached, and [AttributeError] is no [CloudError] that
    the wrapper would catch. *)
Definition list_app_settings : M (option settings) :=
  self_slot;;
  issue ListApplicationSettingsSlot;; mret (application_settings env).

Definition current_site (s : self_state) : site :=
  {| site_location := s_location s;
     site_site_config := s_site_config s;
     site_app_settings := s_site_app_settings s;
     site_tags := s_site_tags s |}.

Definition create_update_slot : M slot_record :=
  s ← get;
  issue (CreateOrUpdateSlot (current_site s));;
  match created_slot env with
  | Some r => mret r
  | None => fail ErrorCreatingSlot
  end.

Definition delete_slot : M unit :=
  issue DeleteSlot;;
  if cloud_error env DeleteSlot then fail ErrorDeletingSlot else mret tt.

(** A [CloudError] of the three lifecycle calls is logged and dropped.
    The last branch of the source, for a state other than the three
    choices, has no counterpart. *)
Definition set_slot_state (appstate : app_state_choice) : M unit :=
  match appstate with
  | Started => issue StartSlot
  | Stopped => issue StopSlot
  | Restarted => issue RestartSlot
  end.

Definition swap_call (c : call) : M unit :=
  issue c;;
  if cloud_error env c then fail FailedToSwap else mret tt.

Definition swap_slot (sw : swap_request) : M unit :=
  match action sw with
  | Some Swap =>
      match target_slot sw with
      | None => swap_call SwapSlotWithProduction
      | Some t => swap_call (SwapSlotSlot t)
      end
  | Some Preview =>
      match target_slot sw with
      | None => swap_call ApplySlotConfigToProduction
      | Some t => swap_call (ApplySlotConfigurationSlot t)
      end
  | Some Reset =>
      match target_slot sw with
      | None => swap_call ResetProductionSlotConfig
      | Some t => swap_call (ResetSlotConfigurationSlot t)
      end;;
      swap_call (ResetSlotConfigurationSlot (name self))
  | None => raise UnboundLocalError
  end.

(** *** [exec_module], lines 550 to 583: the framework list *)

Definition windows_framework (fx : framework) : M unit :=
  (if negb (Py.mem (fx_name fx) supported_windows_frameworks)
   then fail (UnsupportedWindowsFramework (fx_name fx))
   else modify (set_site_config (fx_name fx ++ "_version") (fx_version fx)));;
  match fx_settings fx with
  | Some st =>
      modify (set_site_config "java_container" (java_container st));;
      modify (set_site_config "java_container_version"
                (java_container_version st))
  | None => mret tt
  end.

Definition linux_framework (fx : framework) : M unit :=
  when (negb (Py.mem (fx_name fx) supported_linux_frameworks))
    (fail (UnsupportedLinuxFramework (fx_name fx)));;
  modify (set_site_config "linux_fx_version"
            (Py.upper (fx_name fx ++ "|" ++ fx_version fx)));;
  when (String.eqb (fx_name fx) "java")
    (when (negb (String.eqb (fx_version fx) "8"))
       (fail LinuxSupportsJava8Only);;
     match fx_settings fx with
     | Some st =>
         if negb (String.eqb (Py.lower (java_container st)) "tomcat")
         then fail LinuxSupportsTomcatOnly
         else modify (set_site_config "linux_fx_version"
                        ("TOMCAT|" ++ java_container_version st ++ "-jre8"))
     | None => modify (set_site_config "linux_fx_version" "JAVA|8-jre8")
     end).

Definition normalize_frameworks (fxs : list framework) : M unit :=
  when ((1 <? length fxs)%nat
        && existsb (λ f, String.eqb (fx_name f) "java") fxs)
    (fail JavaMutuallyExclusive);;
  if is_linux env then
    when (negb (length fxs =? 1)%nat) (fail OneFrameworkOnlyForLinux);;
    match fxs with
    | fx :: _ => linux_framework fx
    | [] => raise IndexError
    end
  else for_each fxs windows_framework.

(** Lines 588 to 604: the container settings. *)
Definition normalize_container (c : container) : M unit :=
  when (Py.truthy_opt (registry_server_url c))
    (modify (set_app_setting "DOCKER_REGISTRY_SERVER_URL"
               ("https://" ++ default "" (registry_server_url c))));;
  modify (set_site_config "linux_fx_version"
            ("DOCKER|"
             ++ (if Py.truthy_opt (registry_server_url c)
                 then default "" (registry_server_url c) ++ "/" else "")
             ++ container_name c));;
  when (Py.truthy_opt (registry_server_user c))
    (modify (set_app_setting "DOCKER_REGISTRY_SERVER_USERNAME"
               (default "" (registry_server_user c))));;
  when (Py.truthy_opt (registry_server_password c))
    (modify (set_app_setting "DOCKER_REGISTRY_SERVER_PASSWORD"
               (default "" (registry_server_password c)))).

(** Lines 610 to 632: the slot does not exist yet.  The assignment of
    [app_command_line] is guarded by [hasattr(self, 'startup_file')],
    an attribute that neither [__init__] nor the loop over [kwargs]
    creates, so it never runs. *)
Definition prepare_create : M bool :=
  modify (set_to_do CreateOrUpdate);;
  modify (set_site_tags (tags self));;
  s ← get;
  when (negb (bool_decide (s_app_settings s = ∅)))
    (modify (set_site_app_settings (map_to_list (s_app_settings s))));;
  match auto_swap_slot_name self with
  | AutoSwapName n =>
      when (Py.truthy n) (modify (set_site_config "auto_swap_slot_name" n))
  | _ => mret tt
  end;;
  mret true.

(** [self.is_app_settings_changed()] as called at line 664: the observed
    map is read off [self.app_settings_strDic], which is [False] when the
    listing raised. *)
Definition app_settings_changed : M bool :=
  s ← get;
  if bool_decide (s_app_settings s = ∅) then mret false
  else
    match s_app_settings_strDic s with
    | Some properties =>
        mret (is_app_settings_changed (map_to_list (s_app_settings s)).*1
                (s_app_settings s) properties)
    | None => raise AttributeError
    end.

(** Lines 633 to 670: the slot exists.  When [get_configuration] has
    answered [False], reading [old_config.linux_fx_version] at line 652
    raises at the latest, and no call is issued before that. *)
Definition prepare_update (old_response : slot_record) : M bool :=
  let '(tags_changed, new_tags) :=
    update_tags (tags self) (slot_tags old_response) in
  modify (set_site_tags new_tags);;
  let to_be_updated := tags_changed in
  old_config ← get_configuration;
  match old_config with
  | None => raise AttributeError
  | Some old_config =>
      s ← get;
      let config_changed :=
        is_site_config_changed (auto_swap_slot_name self)
          (s_site_config s) old_config in
      when config_changed (modify (set_to_do CreateOrUpdate));;
      let fx_changed :=
        negb (bool_decide
                (old_config !! "linux_fx_version"
                 = Some (default "" (s_site_config s !! "linux_fx_version"))))
      in
      when fx_changed (modify (set_to_do CreateOrUpdate));;
      let to_be_updated := to_be_updated || config_changed || fx_changed in
      strDic ← list_app_settings;
      modify (set_app_settings_strDic strDic);;
      (if purge_app_settings self then
         match strDic with
         | Some _ => modify (set_app_settings_strDic (Some ∅))
         | None => raise AttributeError
         end
       else mret tt);;
      settings_changed ←
        (if negb (purge_app_settings self) then app_settings_changed
         else mret true);
      if (settings_changed : bool) then
        modify (set_to_do CreateOrUpdate);;
        s ← get;
        modify (set_app_settings_strDic
                  (match s_app_settings_strDic s with
                   | Some properties => Some (s_app_settings s ∪ properties)
                   | None => None
                   end));;
        mret true
      else mret (to_be_updated || purge_app_settings self)
  end.

(** Lines 549 to 670: [state == 'present']; the answer is
    [to_be_updated]. *)
Definition present (old_response : option slot_record) : M bool :=
  match frameworks self with
  | Some (fx :: fxs) => normalize_frameworks (fx :: fxs)
  | _ => mret tt
  end;;
  match container_settings self with
  | Some c => normalize_container c
  | None => mret tt
  end;;
  match old_response with
  | None => prepare_create
  | Some old => prepare_update old
  end.

(** Lines 672 to 685: [state == 'absent']. *)
Definition absent (old_response : option slot_record) : M bool :=
  match old_response with
  | Some _ =>
      modify (set_changed true);;
      when (check_mode self) return_results;;
      delete_slot;;
      mret false
  | None => mret false
  end.

(** Lines 687 to 697. *)
Definition create_or_update (to_be_updated : bool)
    : M (option slot_record) :=
  if to_be_updated then
    modify (set_changed true);;
    when (check_mode self) return_results;;
    s ← get;
    match s_to_do s with
    | CreateOrUpdate =>
        response ← create_update_slot;
        modify (set_id (Some (slot_id response)));;
        mret (Some response)
    | _ => mret None
    end
  else mret None.

(** Lines 706 to 714. *)
Definition needs_state_change (sl : slot_record) : bool :=
  (negb (bool_decide (slot_state sl = Some "Stopped"))
   && app_state_eqb (app_state self) Stopped)
  || (negb (bool_decide (slot_state sl = Some "Running"))
      && app_state_eqb (app_state self) Started)
  || app_state_eqb (app_state self) Restarted.

Definition adjust_state (sl : slot_record) : M unit :=
  when (needs_state_change sl)
    (modify (set_changed true);;
     when (check_mode self) return_results;;
     set_slot_state (app_state self)).

(** Lines 716 to 721. *)
Definition adjust_swap : M unit :=
  match swap self with
  | Some sw =>
      modify (set_changed true);;
      when (check_mode self) return_results;;
      swap_slot sw
  | None => mret tt
  end.

(** Lines 531 to 703: up to the choice of the slot record [slot]. *)
Definition reconcile : M (option slot_record) :=
  resource_group ← get_resource_group;
  s ← get;
  when (negb (Py.truthy_opt (s_location s)))
    (modify (set_location resource_group));;
  webapp_response ← get_webapp;
  when (negb webapp_response) (fail WebAppDoesNotExist);;
  old_response ← get_slot;
  to_be_updated ←
    match state self with
    | Present => present old_response
    | Absent => absent old_response
    end;
  response ← create_or_update to_be_updated;
  mret (match response with
        | Some r => Some r
        | None => old_response
        end).

(** Lines 705 to 723. *)
Definition adjust (slot : option slot_record) : M unit :=
  match slot with
  | Some sl => adjust_state sl;; adjust_swap
  | None => mret tt
  end.

Definition exec_module_body : M unit :=
  slot ← reconcile; adjust slot.

Definition exec_module : result unit * self_state :=
  exec_module_body initial_state.

End AzureRMWebAppSlots.

(** * Vocabulary of the properties *)

(** [wp c Q E s]: run from [s], [c] either ends normally in a value and a
    state that satisfy [Q], or stops in a way and a state that satisfy
    [E]. *)
Definition wp {A} (c : M A) (Q : A → self_state → Prop)
    (E : stop → self_state → Prop) (s : self_state) : Prop :=
  match c s with
  | (Ok a, s') => Q a s'
  | (Stop w, s') => E w s'
  end.

(** The three lookups that open every invocation. *)
Definition lookups : list call := [GetResourceGroup; GetWebApp; GetSlot].

(** A stop that is no failure of the validation. *)
Definition no_validation (w : stop) (s : self_state) : Prop :=
  ∀ f, w = Failed f → is_validation_error f = false.

(** A failure of the validation leaves the three lookups as the only
    calls. *)
Definition validation_stops_at_lookups (w : stop) (s : self_state) : Prop :=
  ∀ f, w = Failed f → is_validation_error f = true → s_calls s = lookups.

(** No call issued and the changed flag left alone between [s] and [s']. *)
Definition silent (s s' : self_state) : Prop :=
  s_calls s' = s_calls s ∧ s_changed s' = s_changed s.

Definition only_lookups (s : self_state) : Prop :=
  Forall (λ c, is_mutation c = false) (s_calls s).



(** One delete call has been issued and the change is recorded. *)
Definition deleted (s : self_state) : Prop :=
  s_changed s = true ∧ List.filter is_delete (s_calls s) = [DeleteSlot].

(** The call that [set_slot_state] issues. *)
Definition state_call (appstate : app_state_choice) : call :=
  match appstate with
  | Started => StartSlot
  | Stopped => StopSlot
  | Restarted => RestartSlot
  end.


Definition java_8 : framework :=
  {| fx_name := "java"; fx_version := "8"; fx_settings := None |}.


(** * Sample invocations *)

(** A tag merge that keeps the existing tags and reports no change. *)
Definition keep_tags (desired existing : option settings)
    : bool * option settings :=
  (false, existing).

Definition sample_module (st : state_choice)
    (fxs : option (list framework)) (purge : bool)
    (appstate : app_state_choice) (sw : option swap_request)
    (check : bool) : module :=
  {| name := "staging"; location := None; state := st; frameworks := fxs;
     container_settings := None; scm_type := None; app_settings := None;
     purge_app_settings := purge; app_state := appstate; swap := sw;
     tags := None; auto_swap_slot_name := AutoSwapNone;
     check_mode := check |}.

Definition running_slot : slot_record :=
  {| slot_id := "/sites/myapp/slots/staging";
     slot_state := Some "Running"; slot_tags := None |}.

Definition sample_remote (linux : bool) (sl : option slot_record) : remote :=
  {| resource_group_location := Some "westus"; is_linux := linux;
     old_plan_is_linux := linux; webapp := true; slot := sl;
     configuration := Some ∅; application_settings := Some ∅;
     created_slot := Some running_slot; cloud_error := λ _, false |}.

Definition php_7 : framework :=
  {| fx_name := "php"; fx_version := "7.0"; fx_settings := None |}.

(** * The module-level helpers and the deployment-source diff *)

(** [_normalize_sku], lines 317 to 326. *)
Definition _normalize_sku (sku : option string) : option string :=
  match sku with
  | None => None
  | Some sku =>
      let sku := Py.upper sku in
      if String.eqb sku "FREE" then Some "F1"
      else if String.eqb sku "SHARED" then Some "D1"
      else Some sku
  end.

(** [get_sku_name], lines 329 to 344; the answer [None] is Python's. *)
Definition get_sku_name (tier : string) : option string :=
  let tier := Py.upper tier in
  if String.eqb tier "F1" || String.eqb tier "FREE" then Some "FREE"
  else if String.eqb tier "D1" || String.eqb tier "SHARED" then Some "SHARED"
  else if Py.mem tier ["B1"; "B2"; "B3"; "BASIC"] then Some "BASIC"
  else if Py.mem tier ["S1"; "S2"; "S3"] then Some "STANDARD"
  else if Py.mem tier ["P1"; "P2"; "P3"] then Some "PREMIUM"
  else if Py.mem tier ["P1V2"; "P2V2"; "P3V2"] then Some "PREMIUMV2"
  else None.

(** The desired deployment source [self.deployment_source], read through
    [.get]: the values under [url] and [branch], [None] when the key is
    absent or holds [None]. *)
Record source_control := {
  sc_url : option string;
  sc_branch : option string
}.

(** The observed deployment source, the dictionary under
    [site_source_control] of the existing web app, read by subscript: a
    key is in the map exactly when it is in the dictionary, and the value
    [None] is Python's. *)
Abbreviation observed_source := (gmap string (option string)).

(** [is_deployment_source_changed], lines 753 to 763.  The desired source
    is [None] when the dictionary is missing or empty.  The answer [None]
    stands for the exception of a subscript: [TypeError] when the existing
    web app has no [site_source_control], [KeyError] when that dictionary
    lacks the key. *)
Definition is_deployment_source_changed
    (deployment_source : option source_control)
    (site_source_control : option observed_source) : option bool :=
  match deployment_source with
  | None => Some false
  | Some d =>
      url_changed ←
        (if Py.truthy_opt (sc_url d) then
           e ← site_source_control;
           observed ← e !! "url";
           Some (negb (bool_decide (sc_url d = observed)))
         else Some false);
      if (url_changed : bool) then Some true
      else if Py.truthy_opt (sc_branch d) then
        e ← site_source_control;
        observed ← e !! "branch";
        Some (negb (bool_decide (sc_branch d = observed)))
      else Some false
  end.

(** * Vocabulary of the further properties *)



(** Between [s] and [s'] nothing but the site configuration and the
    desired application settings was written. *)
Definition same_but_config (s s' : self_state) : Prop :=
  s_location s' = s_location s
  ∧ s_site_app_settings s' = s_site_app_settings s
  ∧ s_site_tags s' = s_site_tags s
  ∧ s_app_settings_strDic s' = s_app_settings_strDic s
  ∧ s_to_do s' = s_to_do s
  ∧ s_changed s' = s_changed s
  ∧ s_id s' = s_id s
  ∧ s_calls s' = s_calls s.

(** The state of [self] once the resource group, of location [l], the
    parent web app and the slot have been looked up. *)
Definition looked_up (self : module) (l : string) : self_state :=
  add_call GetSlot
    (add_call GetWebApp
       ((if negb (Py.truthy_opt (location self))
         then set_location (Some l) else id)
          (add_call GetResourceGroup (initial_state self)))).




(** The first call of a reset of the swap. *)
Definition reset_target (sw : swap_request) : call :=
  match target_slot sw with
  | None => ResetProductionSlotConfig
  | Some t => ResetSlotConfigurationSlot t
  end.

(** The three application settings that the container settings write. *)
Definition docker_keys : list string :=
  ["DOCKER_REGISTRY_SERVER_URL"; "DOCKER_REGISTRY_SERVER_USERNAME";
   "DOCKER_REGISTRY_SERVER_PASSWORD"].

(** ** The settings diff *)

Section SettingsDiff.

Implicit Types (D O : settings) (keys : list string).

Lemma truthy_opt_Some (o : option string) :
  Py.truthy_opt o = true ↔ ∃ v, o = Some v ∧ v ≠ "".
Proof.
  destruct o as [v|]; simpl; unfold Py.truthy.
  - rewrite negb_true_iff, String.eqb_neq. split.
    + intros Hv. by exists v.
    + by intros (w & [= <-] & Hw).
  - split; [done|]. by intros (w & ? & _).
Qed.

(** The loop answers [False] exactly when every visited key is observed
    with a non-empty value equal to the desired one. *)
Lemma app_settings_loop_false D O keys :
  app_settings_loop D O keys = false ↔
  ∀ k, k ∈ keys → ∃ v, O !! k = Some v ∧ v ≠ "" ∧ D !! k = Some v.
Proof.
  induction keys as [|key rest IH]; simpl.
  - split; [intros _ k Hk; inversion Hk | done].
  - destruct (Py.truthy_opt (O !! key)) eqn:Ht; simpl.
    + apply truthy_opt_Some in Ht as (v & HO & Hv).
      case_bool_decide as Heq; simpl.
      * rewrite IH. split.
        -- intros H k Hk. apply elem_of_cons in Hk as [->|Hk]; [|by apply H].
           exists v. by rewrite Heq.
        -- intros H k Hk. apply H. by right.
      * split; [done|]. intros H.
        destruct (H key) as (w & HOw & _ & HDw); [by left|]. congruence.
    + split; [done|]. intros H.
      destruct (H key) as (w & HOw & Hw & _); [by left|].
      assert (Py.truthy_opt (O !! key) = true) by (apply truthy_opt_Some; eauto).
      congruence.
Qed.

Lemma key_order_elem keys D k :
  key_order keys D → k ∈ keys ↔ is_Some (D !! k).
Proof.
  unfold key_order. intros ->. rewrite list_elem_of_fmap. split.
  - intros ([k' v] & -> & Hin). apply elem_of_map_to_list in Hin. eauto.
  - intros [v Hv]. exists (k, v). split; [done|]. by apply elem_of_map_to_list.
Qed.

(** Exact description of the answer [False]. *)
Lemma is_app_settings_changed_false keys D O :
  key_order keys D →
  is_app_settings_changed keys D O = false ↔
  D = ∅ ∨ (D = O ∧ ∀ k, D !! k ≠ Some "").
Proof.
  intros Hord. unfold is_app_settings_changed.
  case_bool_decide as HD; simpl; [by split; [left|]|].
  destruct (size O =? size D)%nat eqn:Hsz; simpl.
  - apply Nat.eqb_eq in Hsz.
    assert (O ≠ ∅) as HO.
    { intros ->. rewrite map_size_empty in Hsz.
      symmetry in Hsz. by apply map_size_empty_iff in Hsz. }
    assert ((0 <? size O)%nat = true) as ->.
    { apply Nat.ltb_lt. apply map_size_non_empty_iff in HO. lia. }
    rewrite bool_decide_false by done. simpl.
    rewrite app_settings_loop_false. split.
    + intros H. right.
      assert (D ⊆ O) as Hsub.
      { apply map_subseteq_spec. intros k x Hk.
        destruct (H k) as (v & HOv & _ & HDv); [|congruence].
        eapply key_order_elem; eauto. }
      assert (D = O) as <- by (apply map_subseteq_size_eq; [done|lia]).
      split; [done|]. intros k Hk.
      destruct (H k) as (v & _ & Hv & HDv); [|congruence].
      eapply key_order_elem; eauto.
    + intros [?|[<- Hne]]; [done|]. intros k Hk.
      eapply key_order_elem in Hk as [v Hv]; [|done].
      exists v. repeat split; [done| |done]. intros ->. by eapply Hne.
  - split; [done|]. intros [?|[<- _]]; [done|].
    apply Nat.eqb_neq in Hsz. done.
Qed.

End SettingsDiff.

(** C1, as stated, fails: with nothing desired the diff answers [False]
    although the observed map holds a setting that the desired map
    lacks. *)
Lemma C1_empty_desired_counterexample :
  key_order [] ∅
  ∧ is_app_settings_changed [] ∅ {["WEBSITE_NODE_DEFAULT_VERSION" := "6.9"]}
    = false
  ∧ (∅ : settings) ≠ {["WEBSITE_NODE_DEFAULT_VERSION" := "6.9"]}.
Proof.
  split; [|split].
  - unfold key_order. by rewrite map_to_list_empty.
  - reflexivity.
  - intros H.
    apply (f_equal (λ m : settings, m !! "WEBSITE_NODE_DEFAULT_VERSION")) in H.
    by rewrite lookup_empty, lookup_singleton_eq in H.
Qed.

(** C1 (amended): without purge, for a desired map [D] none of whose
    values is the empty string, the diff answers [False] exactly when [D]
    is empty or [D] and the observed map [O] hold the same keys with equal
    values, whatever the order [keys] in which the keys of [D] are
    visited. *)
Theorem C1_settings_diff_false_iff (keys : list string) (D O : settings) :
  key_order keys D →
  (∀ k, D !! k ≠ Some "") →
  is_app_settings_changed keys D O = false ↔ D = ∅ ∨ D = O.
Proof.
  intros Hord Hne.
  rewrite is_app_settings_changed_false by done.
  split; intros [?|H]; auto. destruct H; auto.
Qed.

Lemma C1_settings_diff_false_iff_witness :
  let D : settings := {["a" := "1"; "b" := "2"]} in
  let O : settings := {["b" := "2"; "a" := "1"]} in
  key_order ["b"; "a"] D
  ∧ (∀ k, D !! k ≠ Some "")
  ∧ (is_app_settings_changed ["b"; "a"] D O = false ↔ D = ∅ ∨ D = O).
Proof.
  intros D O.
  assert (key_order ["b"; "a"] D) as Hord.
  { unfold key_order, D. rewrite map_to_list_insert by done.
    rewrite map_to_list_singleton. simpl. apply perm_swap. }
  assert (∀ k, D !! k ≠ Some "") as Hne.
  { intros k Hk. unfold D in Hk.
    apply lookup_insert_Some in Hk as [[_ [=]]|[_ Hk]].
    apply lookup_singleton_Some in Hk as [_ [=]]. }
  split; [exact Hord|]. split; [exact Hne|].
  exact (C1_settings_diff_false_iff ["b"; "a"] D O Hord Hne).
Defined.

(** The guard [not properties.get(key)] also fires on an observed value
    that is the empty string: two equal maps holding an empty value are
    reported as changed. *)
Remark empty_value_reported_changed :
  is_app_settings_changed ["a"] {["a" := ""]} {["a" := ""]} = true.
Proof. reflexivity. Qed.

(** C9: with an empty desired map the diff answers [False] for every
    observed map, empty or not, and whatever key order is supplied: the
    settings that exist only remotely do not trigger an update. *)
Theorem C9_empty_desired_never_changed (keys : list string) (O : settings) :
  is_app_settings_changed keys ∅ O = false.
Proof. reflexivity. Qed.

(** * Properties *)

(** ** Rules for [wp] *)

Section WP.

Context {A B : Type}.
Implicit Types (Q : A → self_state → Prop) (E : stop → self_state → Prop).

Lemma wp_ret (a : A) Q E s : Q a s → wp (mret a) Q E s.
Proof. done. Qed.

Lemma wp_bind (c : M A) (k : A → M B) (R : B → self_state → Prop) E s :
  wp c (λ a s', wp (k a) R E s') E s → wp (c ≫= k) R E s.
Proof.
  unfold wp. cbv [mbind M_bind]. by destruct (c s) as [[a|w] s'].
Qed.

Lemma wp_stop (w : stop) Q E s : E w s → wp (λ s, (Stop w, s)) Q E s.
Proof. done. Qed.

Lemma wp_fail f Q E s : E (Failed f) s → wp (fail f) Q E s.
Proof. done. Qed.

Lemma wp_raise e Q E s : E (Raised e) s → wp (raise e) Q E s.
Proof. done. Qed.

Lemma wp_return_results Q E s : E Returned s → wp return_results Q E s.
Proof. done. Qed.

Lemma wp_mono (c : M A) Q Q' E E' s :
  wp c Q E s →
  (∀ a s', Q a s' → Q' a s') →
  (∀ w s', E w s' → E' w s') →
  wp c Q' E' s.
Proof.
  unfold wp. destruct (c s) as [[a|w] s']; eauto.
Qed.

Lemma wp_run (c : M A) Q E s r s' :
  wp c Q E s → c s = (r, s') →
  match r with Ok a => Q a s' | Stop w => E w s' end.
Proof. unfold wp. intros H Hc. by rewrite Hc in H. Qed.

End WP.

Lemma wp_modify f (Q : unit → self_state → Prop) E s :
  Q tt (f s) → wp (modify f) Q E s.
Proof. done. Qed.

Lemma wp_get (Q : self_state → self_state → Prop) E s :
  Q s s → wp get Q E s.
Proof. done. Qed.

Lemma wp_for_each {A} (I : self_state → Prop) (l : list A)
    (body : A → M unit) E s :
  (∀ x s, I s → wp (body x) (λ _ s', I s') E s) →
  I s → wp (for_each l body) (λ _ s', I s') E s.
Proof.
  intros Hbody. revert s. induction l as [|x l IH]; intros s HI; simpl.
  - by apply wp_ret.
  - apply wp_bind. eapply wp_mono; [by apply Hbody| |done].
    intros ? s' HI'. by apply IH.
Qed.

(** One step of symbolic execution of a [wp] goal. *)
Ltac wp_step :=
  lazymatch goal with
  | |- wp (mbind _ _) _ _ _ => apply wp_bind
  | |- wp (mret _) _ _ _ => apply wp_ret
  | |- wp (modify _) _ _ _ => apply wp_modify
  | |- wp (issue _) _ _ _ => apply wp_modify
  | |- wp get _ _ _ => apply wp_get
  | |- wp (fail _) _ _ _ => apply wp_fail
  | |- wp (raise _) _ _ _ => apply wp_raise
  | |- wp return_results _ _ _ => apply wp_return_results
  | |- wp (when ?b _) _ _ _ => unfold when at 1
  | |- wp (if ?b then _ else _) _ _ _ => destruct b eqn:?
  | |- wp (match ?x with _ => _ end) _ _ _ => destruct x eqn:?
  | |- wp (let '(_, _) := ?x in _) _ _ _ => destruct x eqn:?
  end; cbv beta.

Ltac wp_steps := repeat wp_step.

(** ** Validation comes after the lookups and before everything else *)

Section Validation.

Variable update_tags :
  option settings → option settings → bool * option settings.
Variable self : module.
Variable env : remote.

Ltac no_validation :=
  wp_steps; try done; intros ? [= <-]; done.

Lemma normalize_container_no_validation c s :
  wp (normalize_container c) (λ _ _, True) no_validation s.
Proof. unfold normalize_container. no_validation. Qed.

Lemma prepare_create_no_validation s :
  wp (prepare_create self) (λ _ _, True) no_validation s.
Proof. unfold prepare_create. no_validation. Qed.

Lemma prepare_update_no_validation old s :
  wp (prepare_update update_tags self env old) (λ _ _, True) no_validation s.
Proof.
  unfold prepare_update, get_configuration, list_app_settings, self_slot,
    app_settings_changed.
  no_validation.
Qed.

Lemma absent_no_validation old s :
  wp (absent self env old) (λ _ _, True) no_validation s.
Proof. unfold absent, delete_slot. no_validation. Qed.

Lemma create_or_update_no_validation b s :
  wp (create_or_update self env b) (λ _ _, True) no_validation s.
Proof. unfold create_or_update, create_update_slot. no_validation. Qed.

Lemma adjust_no_validation slot s :
  wp (adjust self env slot) (λ _ _, True) no_validation s.
Proof.
  unfold adjust, adjust_state, adjust_swap, set_slot_state, swap_slot,
    swap_call.
  no_validation.
Qed.

(** The checks of the framework list issue no call and leave the
    changed flag alone, whether they pass or fail, and they never
    return early. *)
Lemma normalize_frameworks_silent fxs s :
  wp (normalize_frameworks env fxs)
    (λ _, silent s) (λ w s', silent s s' ∧ w ≠ Returned) s.
Proof.
  unfold normalize_frameworks, linux_framework.
  wp_steps; try done.
  apply (wp_for_each (silent s)); [|done].
  intros fx s' Hs'. unfold windows_framework. wp_steps; done.
Qed.

Lemma no_validation_weaken w s :
  no_validation w s → validation_stops_at_lookups w s.
Proof. intros H f Hw Hf. specialize (H f Hw). congruence. Qed.

Lemma present_validation old s :
  s_calls s = lookups →
  wp (present update_tags self env old) (λ _ _, True)
    validation_stops_at_lookups s.
Proof.
  intros Hs. unfold present.
  apply wp_bind.
  apply wp_mono with
    (Q := λ _ _, True) (E := λ _ s', s_calls s' = lookups).
  - destruct (frameworks self) as [[|fx fxs]|]; try by apply wp_ret.
    eapply wp_mono; [apply normalize_frameworks_silent|..];
      simpl; intros ? ? Hs'; first [done|destruct Hs' as [[? ?] ?]; congruence].
  - intros _ s' _. apply wp_bind.
    apply wp_mono with (Q := λ _ _, True) (E := no_validation);
      [| |apply no_validation_weaken].
    + destruct (container_settings self);
        [apply normalize_container_no_validation|by apply wp_ret].
    + intros _ s'' _.
      eapply wp_mono; [|done|apply no_validation_weaken].
      destruct old;
        [apply prepare_update_no_validation|apply prepare_create_no_validation].
  - by intros w s' Hs' f _ _.
Qed.

Lemma after_config_validation (old : option slot_record) b s :
  wp (response ← create_or_update self env b;
      mret (match response with Some r => Some r | None => old end))
    (λ slot s', wp (adjust self env slot) (λ _ _, True)
                  validation_stops_at_lookups s')
    validation_stops_at_lookups s.
Proof.
  apply wp_bind.
  eapply wp_mono;
    [apply create_or_update_no_validation| |apply no_validation_weaken].
  intros response s' _. apply wp_ret.
  eapply wp_mono;
    [apply adjust_no_validation|done|apply no_validation_weaken].
Qed.

Lemma exec_module_body_validation :
  wp (exec_module_body update_tags self env) (λ _ _, True)
    validation_stops_at_lookups (initial_state self).
Proof.
  unfold exec_module_body, reconcile, get_resource_group, get_webapp,
    get_slot.
  wp_steps; try (by intros f [= <-]).
  all: eapply wp_mono;
    [first [by apply present_validation
           |eapply wp_mono;
              [apply absent_no_validation|done|apply no_validation_weaken]]
    |intros b s' _; apply after_config_validation
    |done].
Qed.

End Validation.

(** C2, as stated, fails: an invocation whose framework list pairs java
    with php fails the validation after the resource group, the parent web
    app and the slot have been looked up remotely. *)
Lemma C2_lookups_precede_validation_counterexample :
  let run :=
    exec_module keep_tags
      (sample_module Present (Some [java_8; php_7]) false Started None false)
      (sample_remote false None) in
  run.1 = Stop (Failed JavaMutuallyExclusive)
  ∧ is_validation_error JavaMutuallyExclusive = true
  ∧ s_calls run.2 = [GetResourceGroup; GetWebApp; GetSlot].
Proof. vm_compute. done. Qed.

(** C2 (amended): an invocation that fails the validation of the desired
    configuration has issued the three lookups (resource group, parent web
    app, slot) and no other remote call: no configuration or settings
    listing, no create, update or delete, no lifecycle or swap call. *)
Theorem C2_validation_failure_only_after_lookups
    (update_tags : option settings → option settings → bool * option settings)
    (self : module) (env : remote) (f : failure) (s : self_state) :
  exec_module update_tags self env = (Stop (Failed f), s) →
  is_validation_error f = true →
  s_calls s = [GetResourceGroup; GetWebApp; GetSlot].
Proof.
  intros Hrun Hf.
  pose proof (wp_run _ _ _ _ _ _
                (exec_module_body_validation update_tags self env) Hrun) as H.
  by apply (H f).
Qed.

Lemma C2_validation_failure_only_after_lookups_witness :
  let self :=
    sample_module Present (Some [java_8; php_7]) false Started None false in
  let run := exec_module keep_tags self (sample_remote false None) in
  run = (Stop (Failed JavaMutuallyExclusive), run.2)
  ∧ is_validation_error JavaMutuallyExclusive = true
  ∧ s_calls run.2 = [GetResourceGroup; GetWebApp; GetSlot].
Proof.
  assert (exec_module keep_tags
            (sample_module Present (Some [java_8; php_7]) false Started None
               false)
            (sample_remote false None)
          = (Stop (Failed JavaMutuallyExclusive),
             (exec_module keep_tags
                (sample_module Present (Some [java_8; php_7]) false Started
                   None false)
                (sample_remote false None)).2)) as Hrun
    by (vm_compute; reflexivity).
  split; [exact Hrun|]. split; [reflexivity|].
  exact (C2_validation_failure_only_after_lookups _ _ _ _ _ Hrun eq_refl).
Defined.

(** ** Check mode *)

Section CheckMode.

Variable update_tags :
  option settings → option settings → bool * option settings.
Variable self : module.
Variable env : remote.
Hypothesis Hcheck : check_mode self = true.

Lemma only_lookups_add c s :
  is_mutation c = false → only_lookups s → only_lookups (add_call c s).
Proof.
  intros Hc Hs. unfold only_lookups in *. simpl.
  apply Forall_app. split; [done|]. by constructor.
Qed.










End CheckMode.


(** ** Removing a slot *)

Section Absent.

Variable update_tags :
  option settings → option settings → bool * option settings.
Variable self : module.
Variable env : remote.

Lemma deleted_add c s :
  is_delete c = false → deleted s → deleted (add_call c s).
Proof.
  intros Hc [Hch Hd]. split; [done|]. simpl.
  rewrite List.filter_app, Hd. simpl. by rewrite Hc.
Qed.

Lemma deleted_set_changed s : deleted s → deleted (set_changed true s).
Proof. by intros [_ Hd]. Qed.

(** What follows the removal keeps both facts, and can only stop where
    a swap was asked for. *)
Lemma adjust_deleted slot s :
  check_mode self = false →
  deleted s →
  wp (adjust self env slot) (λ _, deleted)
    (λ _ s', deleted s' ∧ swap self ≠ None) s.
Proof.
  intros Hcheck Hd.
  unfold adjust, adjust_state, adjust_swap, set_slot_state, swap_slot,
    swap_call.
  rewrite Hcheck.
  wp_steps;
    repeat first [done | split
                 | apply deleted_add; [done|]
                 | apply deleted_set_changed ].
Qed.

End Absent.

(** C7: with [state=absent], the lookups succeeding: when the slot does
    not exist the run ends with [changed = False] and no delete call; when
    it exists, outside check mode, exactly one delete call is issued and
    [changed] is [True], and the run goes through to the end when the
    delete succeeds and no swap is asked for. *)
Theorem C7_absent
    (update_tags : option settings → option settings → bool * option settings)
    (self : module) (env : remote) :
  state self = Absent →
  is_Some (resource_group_location env) →
  webapp env = true →
  (slot env = None →
     ∃ s, exec_module update_tags self env = (Ok tt, s)
          ∧ s_changed s = false
          ∧ List.filter is_delete (s_calls s) = [])
  ∧ (∀ old, slot env = Some old → check_mode self = false →
       ∃ r s, exec_module update_tags self env = (r, s)
              ∧ s_changed s = true
              ∧ List.filter is_delete (s_calls s) = [DeleteSlot]
              ∧ (cloud_error env DeleteSlot = false → swap self = None →
                 r = Ok tt)).
Proof.
  intros Hstate [l Hrg] Hweb. split.
  - intros Hslot.
    unfold exec_module, exec_module_body, reconcile, get_resource_group,
      get_webapp, get_slot, absent, create_or_update, adjust.
    rewrite Hstate, Hrg, Hweb, Hslot.
    destruct (location self) as [loc|] eqn:Hloc;
      [destruct (Py.truthy loc) eqn:Hl|];
      eexists; (split; [cbv [mbind M_bind mret M_ret issue modify get when
                              initial_state s_location add_call negb
                              Py.truthy_opt fail];
                        rewrite ?Hloc; simpl; rewrite ?Hl; reflexivity|]);
      simpl; done.
  - intros old Hslot Hcheck.
    destruct (exec_module update_tags self env) as [r s] eqn:Hrun.
    exists r, s. split; [done|].
    assert (wp (exec_module_body update_tags self env)
              (λ _, deleted)
              (λ w s', deleted s'
                       ∧ (cloud_error env DeleteSlot = false →
                          swap self ≠ None))
              (initial_state self)) as Hwp.
    { unfold exec_module_body, reconcile, get_resource_group,
        get_webapp, get_slot, absent, create_or_update, delete_slot.
      rewrite Hstate, Hrg, Hweb, Hslot, Hcheck.
      wp_steps; try (simpl in *; congruence);
        try (split; [by split|congruence]).
      all: eapply wp_mono;
        [apply adjust_deleted; [done|by split]|done|by intros ? ? [? ?]]. }
    pose proof (wp_run _ _ _ _ _ _ Hwp Hrun) as H.
    destruct r as [[]|w]; simpl in H.
    + destruct H as [? ?]. done.
    + destruct H as [[? ?] Hsw]. repeat split; try done.
      intros Hce Hnone. by destruct (Hsw Hce).
Qed.

(** ** Lifecycle state and swap *)

Section Lifecycle.

Variable update_tags :
  option settings → option settings → bool * option settings.
Variable self : module.
Variable env : remote.

(** Outside check mode the lifecycle step always goes through: it does
    nothing, or records the change and issues the call of [app_state]. *)
Lemma adjust_state_run sl s :
  check_mode self = false →
  adjust_state self sl s =
  (Ok tt,
   if needs_state_change self sl
   then add_call (state_call (app_state self)) (set_changed true s)
   else s).
Proof.
  intros Hcheck. unfold adjust_state, set_slot_state. rewrite Hcheck.
  destruct (needs_state_change self sl); [|done].
  by destruct (app_state self).
Qed.







End Lifecycle.


(** C8: a swap request with [action=swap] and no target slot issues the
    swap with production, and nothing else: the named-slot variant is not
    called. *)
Theorem C8_swap_with_production (self : module) (env : remote)
    (s : self_state) :
  s_calls (swap_slot self env {| action := Some Swap; target_slot := None |} s).2
  = (s_calls s ++ [SwapSlotWithProduction])%list.
Proof.
  unfold swap_slot, swap_call. simpl. cbv [mbind M_bind issue modify].
  by destruct (cloud_error env SwapSlotWithProduction).
Qed.

(** ** The runtime descriptor of a linux parent *)




(** ** The site-config diff *)

Section SiteConfig.

Implicit Types (sc ec : settings).

Lemma updatable_frameworks_loop_ext sc sc' ec ec' fxs :
  (∀ k, k ∈ fxs → sc !! k = sc' !! k ∧ ec !! k = ec' !! k) →
  updatable_frameworks_loop sc ec fxs = updatable_frameworks_loop sc' ec' fxs.
Proof.
  induction fxs as [|fx fxs IH]; intros H; simpl; [done|].
  destruct (H fx) as [-> ->]; [by left|].
  rewrite IH; [done|]. intros k Hk. apply H. by right.
Qed.

Lemma updatable_frameworks_loop_agree sc ec fxs :
  (∀ k, k ∈ fxs → sc !! k = ec !! k) →
  updatable_frameworks_loop sc ec fxs = false.
Proof.
  induction fxs as [|fx fxs IH]; intros H; simpl; [done|].
  rewrite IH by (intros k Hk; apply H; by right).
  rewrite (H fx) by (by left).
  destruct (Py.truthy_opt (ec !! fx)); simpl; [|done].
  by rewrite bool_decide_true.
Qed.

End SiteConfig.

(** C10: the site-config diff reads the desired and the observed
    configuration at [net_framework_version], [java_version],
    [php_version], [python_version] and [scm_type] only, and the observed
    auto-swap target: two pairs that agree there get the same answer; and
    when the desired and the observed configuration agree on these five
    fields and on the auto-swap target, the answer is [False] whatever
    they hold elsewhere, as under [node_version], [ruby_version] or
    [dotnetcore_version]. *)
Theorem C10_site_config_diff_scope (a : auto_swap) :
  (∀ sc sc' ec ec' : settings,
     (∀ k, k ∈ site_config_updatable_frameworks →
           sc !! k = sc' !! k ∧ ec !! k = ec' !! k) →
     ec !! "auto_swap_slot_name" = ec' !! "auto_swap_slot_name" →
     is_site_config_changed a sc ec = is_site_config_changed a sc' ec')
  ∧ (∀ sc ec : settings,
       (∀ k, k ∈ site_config_updatable_frameworks → sc !! k = ec !! k) →
       match a with
       | AutoSwapNone => True
       | AutoSwapFalse => ec !! "auto_swap_slot_name" = None
       | AutoSwapName n => ec !! "auto_swap_slot_name" = Some n
       end →
       is_site_config_changed a sc ec = false).
Proof.
  split.
  - intros sc sc' ec ec' Hk Ha. unfold is_site_config_changed.
    rewrite (updatable_frameworks_loop_ext sc sc' ec ec') by done.
    by rewrite Ha.
  - intros sc ec Hk Ha. unfold is_site_config_changed.
    rewrite updatable_frameworks_loop_agree by done.
    destruct a as [| |n]; [done|..]; rewrite Ha.
    + by rewrite bool_decide_false by (by intros ?).
    + rewrite bool_decide_true by done. simpl. apply andb_false_r.
Qed.

(** ** The theorems at sample invocations *)




Lemma C7_absent_witness :
  let self := sample_module Absent None false Started None false in
  let env := sample_remote false None in
  state self = Absent
  ∧ is_Some (resource_group_location env)
  ∧ webapp env = true
  ∧ ∃ s, exec_module keep_tags self env = (Ok tt, s)
         ∧ s_changed s = false
         ∧ List.filter is_delete (s_calls s) = [].
Proof.
  intros self env.
  assert (is_Some (resource_group_location env)) as Hrg
    by (exists "westus"; reflexivity).
  destruct (C7_absent keep_tags self env eq_refl Hrg eq_refl) as [Hnone _].
  split; [reflexivity|]. split; [exact Hrg|]. split; [reflexivity|].
  exact (Hnone eq_refl).
Defined.

Lemma C10_site_config_diff_scope_witness :
  let sc : settings := {["php_version" := "7.0"; "node_version" := "6.9"]} in
  let ec : settings := {["php_version" := "7.0"; "node_version" := "8.1"]} in
  (∀ k, k ∈ site_config_updatable_frameworks → sc !! k = ec !! k)
  ∧ sc !! "node_version" ≠ ec !! "node_version"
  ∧ is_site_config_changed AutoSwapNone sc ec = false.
Proof.
  intros sc ec.
  assert (∀ k, k ∈ site_config_updatable_frameworks → sc !! k = ec !! k)
    as Hagree.
  { intros k Hk. unfold site_config_updatable_frameworks in Hk.
    repeat (apply elem_of_cons in Hk as [->|Hk];
            [vm_compute; reflexivity|]).
    by apply elem_of_nil in Hk. }
  split; [exact Hagree|]. split; [vm_compute; discriminate|].
  destruct (C10_site_config_diff_scope AutoSwapNone) as [_ Hfalse].
  exact (Hfalse sc ec Hagree I).
Defined.

(** * Further properties of the code *)

(** ** Case conversion *)

Lemma upper_ascii_idemp c : Py.upper_ascii (Py.upper_ascii c) = Py.upper_ascii c.
Proof. destruct c as [[] [] [] [] [] [] [] []]; reflexivity. Qed.

Lemma upper_lower_ascii c : Py.upper_ascii (Py.lower_ascii c) = Py.upper_ascii c.
Proof. destruct c as [[] [] [] [] [] [] [] []]; reflexivity. Qed.

Lemma upper_idemp s : Py.upper (Py.upper s) = Py.upper s.
Proof. induction s as [|c s IH]; simpl; [done|]. by rewrite upper_ascii_idemp, IH. Qed.

Lemma upper_lower s : Py.upper (Py.lower s) = Py.upper s.
Proof. induction s as [|c s IH]; simpl; [done|]. by rewrite upper_lower_ascii, IH. Qed.

Lemma truthy_upper s : Py.truthy (Py.upper s) = Py.truthy s.
Proof. by destruct s. Qed.

Lemma truthy_opt_upper (o : option string) :
  Py.truthy_opt (Py.upper <$> o) = Py.truthy_opt o.
Proof. destruct o; simpl; [apply truthy_upper|done]. Qed.

(** ** SKU names *)

Lemma get_sku_name_upper tier : get_sku_name (Py.upper tier) = get_sku_name tier.
Proof. unfold get_sku_name. by rewrite upper_idemp. Qed.

(** X1: [_normalize_sku] is idempotent: normalising a normalised SKU
    changes nothing. *)
Theorem X1_normalize_sku_idempotent (sku : option string) :
  _normalize_sku (_normalize_sku sku) = _normalize_sku sku.
Proof.
  destruct sku as [sku|]; [|done]. unfold _normalize_sku.
  destruct (String.eqb (Py.upper sku) "FREE") eqn:Hfree; [done|].
  destruct (String.eqb (Py.upper sku) "SHARED") eqn:Hshared; [done|].
  by rewrite upper_idemp, Hfree, Hshared.
Qed.

(** X2: [get_sku_name] does not depend on the case of its argument. *)
Theorem X2_get_sku_name_case_insensitive (tier : string) :
  get_sku_name (Py.upper tier) = get_sku_name tier
  ∧ get_sku_name (Py.lower tier) = get_sku_name tier.
Proof.
  split; [apply get_sku_name_upper|].
  unfold get_sku_name. by rewrite upper_lower.
Qed.

(** X3: the tier of a SKU is the tier of its normal form: [get_sku_name]
    after [_normalize_sku] is [get_sku_name]. *)
Theorem X3_get_sku_name_after_normalize (sku : string) :
  (_normalize_sku (Some sku) ≫= get_sku_name) = get_sku_name sku.
Proof.
  unfold _normalize_sku. simpl.
  destruct (String.eqb (Py.upper sku) "FREE") eqn:Hfree; simpl.
  - unfold get_sku_name. rewrite Hfree. simpl. by rewrite orb_true_r.
  - destruct (String.eqb (Py.upper sku) "SHARED") eqn:Hshared; simpl.
    + unfold get_sku_name. rewrite Hfree, Hshared. simpl.
      apply String.eqb_eq in Hshared. rewrite Hshared. reflexivity.
    + apply get_sku_name_upper.
Qed.

(** X4: [get_sku_name] answers with one of six tier names, and of these
    it takes back only [FREE], [SHARED] and [BASIC]: given [STANDARD],
    [PREMIUM] or [PREMIUMV2] it answers [None]. *)
Theorem X4_get_sku_name_range (tier r : string) :
  get_sku_name tier = Some r →
  r ∈ ["FREE"; "SHARED"; "BASIC"; "STANDARD"; "PREMIUM"; "PREMIUMV2"]
  ∧ get_sku_name r =
    if Py.mem r ["FREE"; "SHARED"; "BASIC"] then Some r else None.
Proof.
  intros H. unfold get_sku_name in H.
  repeat match type of H with
         | context [if ?b then _ else _] => destruct b
         end;
    try discriminate;
    injection H as <-; (split; [set_solver|reflexivity]).
Qed.

Lemma X4_get_sku_name_range_witness :
  get_sku_name "s2" = Some "STANDARD"
  ∧ "STANDARD" ∈ ["FREE"; "SHARED"; "BASIC"; "STANDARD"; "PREMIUM"; "PREMIUMV2"]
  ∧ get_sku_name "STANDARD" = None.
Proof.
  destruct (X4_get_sku_name_range "s2" "STANDARD" eq_refl) as [Hin Hback].
  split; [reflexivity|]. split; [exact Hin|exact Hback].
Defined.

(** ** The deployment-source diff *)

(** X5: a desired deployment source that gives neither a url nor a branch
    is never a change, and the observed source is not even read: the
    answer is [False] also when the existing web app has no
    [site_source_control]. *)
Theorem X5_deployment_source_nothing_desired
    (d : source_control) (e : option observed_source) :
  Py.truthy_opt (sc_url d) = false →
  Py.truthy_opt (sc_branch d) = false →
  is_deployment_source_changed None e = Some false
  ∧ is_deployment_source_changed (Some d) e = Some false.
Proof.
  intros Hurl Hbranch. split; [done|].
  unfold is_deployment_source_changed. by rewrite Hurl, Hbranch.
Qed.

Lemma X5_deployment_source_nothing_desired_witness :
  let d := {| sc_url := None; sc_branch := Some "" |} in
  Py.truthy_opt (sc_url d) = false
  ∧ Py.truthy_opt (sc_branch d) = false
  ∧ is_deployment_source_changed None None = Some false
  ∧ is_deployment_source_changed (Some d) None = Some false.
Proof.
  intros d. do 2 (split; [reflexivity|]).
  exact (X5_deployment_source_nothing_desired d None eq_refl eq_refl).
Defined.

(** X6: against an observed source that holds both keys, the diff
    answers, and it answers [False] exactly when every desired field that
    is given equals the observed one.  The url is compared first: when it
    is desired and the observed source lacks the key [url], the subscript
    raises; so does the subscript of [branch], when the branch is desired,
    the url gives no change and the key [branch] is missing; and so does
    the first subscript when anything is desired and the existing web app
    has no [site_source_control]. *)
Theorem X6_deployment_source_diff (d : source_control)
    (e : observed_source) :
  (is_deployment_source_changed (Some d) (Some e) = Some false ↔
   (Py.truthy_opt (sc_url d) = true → e !! "url" = Some (sc_url d))
   ∧ (Py.truthy_opt (sc_branch d) = true → e !! "branch" = Some (sc_branch d)))
  ∧ (is_Some (e !! "url") → is_Some (e !! "branch") →
     is_deployment_source_changed (Some d) (Some e) ≠ None)
  ∧ (Py.truthy_opt (sc_url d) = true → e !! "url" = None →
     is_deployment_source_changed (Some d) (Some e) = None)
  ∧ ((Py.truthy_opt (sc_url d) = true → e !! "url" = Some (sc_url d)) →
     Py.truthy_opt (sc_branch d) = true → e !! "branch" = None →
     is_deployment_source_changed (Some d) (Some e) = None)
  ∧ (Py.truthy_opt (sc_url d) || Py.truthy_opt (sc_branch d) = true →
     is_deployment_source_changed (Some d) None = None).
Proof.
  destruct d as [u b].
  unfold is_deployment_source_changed. simpl.
  destruct (e !! "url") as [u'|], (e !! "branch") as [b'|];
    destruct (Py.truthy_opt u), (Py.truthy_opt b); simpl;
    repeat case_bool_decide; simpl;
    repeat split; intros; try congruence; try done;
    repeat match goal with
           | H : is_Some None |- _ => destruct H; discriminate
           | H : _ ∧ _ |- _ => destruct H
           | H : true = true → _ |- _ => specialize (H eq_refl)
           end;
    congruence.
Qed.

Lemma X6_deployment_source_diff_witness :
  let d := {| sc_url := Some "https://example.org/app.git"; sc_branch := None |} in
  let e : observed_source := {["branch" := Some "master"]} in
  Py.truthy_opt (sc_url d) = true
  ∧ e !! "url" = None
  ∧ is_deployment_source_changed (Some d) (Some e) = None.
Proof.
  intros d e.
  assert (e !! "url" = None) as Hurl by (vm_compute; reflexivity).
  destruct (X6_deployment_source_diff d e) as (_ & _ & Hkey & _ & _).
  split; [reflexivity|]. split; [exact Hurl|]. exact (Hkey eq_refl Hurl).
Defined.

(** ** The settings diff, continued *)

Lemma bool_false_iff_eq (b b' : bool) : (b = false ↔ b' = false) → b = b'.
Proof. destruct b, b'; intros [H1 H2]; auto. symmetry. auto. Qed.

Lemma app_settings_loop_perm (D O : settings) keys keys' :
  keys ≡ₚ keys' → app_settings_loop D O keys = app_settings_loop D O keys'.
Proof.
  intros Hp. apply bool_false_iff_eq. rewrite !app_settings_loop_false.
  split; intros H k Hk; apply H; [by rewrite Hp|by rewrite <- Hp].
Qed.

(** X7: the settings diff answers [False] exactly when nothing is
    desired, or the desired and the observed map are equal and hold no
    empty value: two equal maps with a value that is the empty string are
    reported as changed. *)
Theorem X7_settings_diff_exact (keys : list string) (D O : settings) :
  key_order keys D →
  is_app_settings_changed keys D O = false ↔
  D = ∅ ∨ (D = O ∧ ∀ k, D !! k ≠ Some "").
Proof. apply is_app_settings_changed_false. Qed.

Lemma X7_settings_diff_exact_witness :
  let D : settings := {["a" := ""]} in
  key_order ["a"] D
  ∧ is_app_settings_changed ["a"] D D = true.
Proof.
  intros D.
  assert (key_order ["a"] D) as Hord.
  { unfold key_order, D. by rewrite map_to_list_singleton. }
  split; [exact Hord|].
  destruct (is_app_settings_changed ["a"] D D) eqn:Hc; [reflexivity|].
  apply (X7_settings_diff_exact ["a"] D D Hord) in Hc as [Hempty|[_ Hne]].
  - apply (f_equal (λ m : settings, m !! "a")) in Hempty.
    unfold D in Hempty. rewrite lookup_singleton_eq, lookup_empty in Hempty.
    discriminate.
  - exfalso. apply (Hne "a"). unfold D. apply lookup_singleton_eq.
Defined.

(** X8: the answer of the settings diff does not depend on the order in
    which the keys are visited. *)
Theorem X8_settings_diff_order (keys keys' : list string) (D O : settings) :
  keys ≡ₚ keys' →
  is_app_settings_changed keys D O = is_app_settings_changed keys' D O.
Proof.
  intros Hp. unfold is_app_settings_changed.
  by rewrite (app_settings_loop_perm D O keys keys' Hp).
Qed.

Lemma X8_settings_diff_order_witness :
  let D : settings := {["a" := "1"; "b" := "2"]} in
  let O : settings := {["a" := "1"; "b" := "3"]} in
  ["a"; "b"] ≡ₚ ["b"; "a"]
  ∧ is_app_settings_changed ["a"; "b"] D O
    = is_app_settings_changed ["b"; "a"] D O.
Proof.
  intros D O.
  assert (["a"; "b"] ≡ₚ ["b"; "a"]) as Hp by apply perm_swap.
  split; [exact Hp|]. exact (X8_settings_diff_order _ _ D O Hp).
Defined.

(** X9: as soon as something is desired, an observed map of another size
    is a change: settings that exist only remotely do trigger an update
    then, and so do missing ones. *)
Theorem X9_settings_diff_size (keys : list string) (D O : settings) :
  D ≠ ∅ → size O ≠ size D → is_app_settings_changed keys D O = true.
Proof.
  intros HD Hsz. unfold is_app_settings_changed.
  rewrite bool_decide_false by done. simpl.
  apply Nat.eqb_neq in Hsz. by rewrite Hsz.
Qed.

Lemma X9_settings_diff_size_witness :
  let D : settings := {["a" := "1"]} in
  let O : settings := {["a" := "1"; "b" := "2"]} in
  D ≠ ∅ ∧ size O ≠ size D
  ∧ is_app_settings_changed ["a"] D O = true.
Proof.
  intros D O.
  assert (D ≠ ∅) as HD.
  { intros H. apply (f_equal (λ m : settings, m !! "a")) in H.
    unfold D in H. rewrite lookup_singleton_eq, lookup_empty in H.
    discriminate. }
  assert (size O ≠ size D) as Hsz.
  { unfold O, D. rewrite map_size_insert_None by done.
    rewrite !map_size_singleton. discriminate. }
  split; [exact HD|]. split; [exact Hsz|].
  exact (X9_settings_diff_size ["a"] D O HD Hsz).
Defined.

(** ** The site-config diff, continued *)

Lemma truthy_opt_of_upper (o o' : option string) :
  Py.upper <$> o = Py.upper <$> o' → Py.truthy_opt o = Py.truthy_opt o'.
Proof.
  intros H. by rewrite <- (truthy_opt_upper o), <- (truthy_opt_upper o'), H.
Qed.

Lemma updatable_frameworks_loop_case (sc sc' ec ec' : settings) fxs :
  (∀ k, k ∈ fxs →
        Py.upper <$> sc !! k = Py.upper <$> sc' !! k
        ∧ Py.upper <$> ec !! k = Py.upper <$> ec' !! k) →
  updatable_frameworks_loop sc ec fxs = updatable_frameworks_loop sc' ec' fxs.
Proof.
  induction fxs as [|fx fxs IH]; intros H; simpl; [done|].
  destruct (H fx) as [Hsc Hec]; [by left|].
  rewrite (truthy_opt_of_upper _ _ Hsc), (truthy_opt_of_upper _ _ Hec).
  rewrite Hsc, Hec.
  rewrite IH; [done|]. intros k Hk. apply H. by right.
Qed.

Lemma updatable_frameworks_loop_true (sc ec : settings) fxs k :
  k ∈ fxs →
  Py.truthy_opt (sc !! k) = true →
  Py.truthy_opt (ec !! k) = false
  ∨ Py.upper <$> ec !! k ≠ Py.upper <$> sc !! k →
  updatable_frameworks_loop sc ec fxs = true.
Proof.
  intros Hk Hsc Hec. induction fxs as [|fx fxs IH]; [by apply elem_of_nil in Hk|].
  simpl. apply elem_of_cons in Hk as [<-|Hk].
  - rewrite Hsc. simpl. destruct Hec as [->|Hne]; [done|].
    rewrite (bool_decide_false _ Hne). simpl. by rewrite orb_true_r.
  - rewrite (IH Hk). by destruct (_ && _).
Qed.

(** X10: the site-config diff compares the five updatable fields without
    regard to case: two desired and two observed configurations that,
    upper-cased, agree on these fields, and that observe the same
    auto-swap target, get the same answer. *)
Theorem X10_site_config_diff_ignores_case (a : auto_swap)
    (sc sc' ec ec' : settings) :
  (∀ k, k ∈ site_config_updatable_frameworks →
        Py.upper <$> sc !! k = Py.upper <$> sc' !! k
        ∧ Py.upper <$> ec !! k = Py.upper <$> ec' !! k) →
  ec !! "auto_swap_slot_name" = ec' !! "auto_swap_slot_name" →
  is_site_config_changed a sc ec = is_site_config_changed a sc' ec'.
Proof.
  intros Hk Ha. unfold is_site_config_changed.
  rewrite (updatable_frameworks_loop_case sc sc' ec ec') by done.
  by rewrite Ha.
Qed.

Lemma X10_site_config_diff_ignores_case_witness :
  let sc : settings := {["net_framework_version" := "v4.0"]} in
  let sc' : settings := {["net_framework_version" := "V4.0"]} in
  let ec : settings := {["net_framework_version" := "v4.0"]} in
  (∀ k, k ∈ site_config_updatable_frameworks →
        Py.upper <$> sc !! k = Py.upper <$> sc' !! k
        ∧ Py.upper <$> ec !! k = Py.upper <$> ec !! k)
  ∧ is_site_config_changed AutoSwapNone sc ec
    = is_site_config_changed AutoSwapNone sc' ec.
Proof.
  intros sc sc' ec.
  assert (∀ k, k ∈ site_config_updatable_frameworks →
               Py.upper <$> sc !! k = Py.upper <$> sc' !! k
               ∧ Py.upper <$> ec !! k = Py.upper <$> ec !! k) as Hk.
  { intros k Hk. unfold site_config_updatable_frameworks in Hk.
    repeat (apply elem_of_cons in Hk as [->|Hk];
            [split; vm_compute; reflexivity|]).
    by apply elem_of_nil in Hk. }
  split; [exact Hk|].
  exact (X10_site_config_diff_ignores_case AutoSwapNone sc sc' ec ec Hk eq_refl).
Defined.

(** X11: a desired value under one of the five updatable fields is a
    change as soon as the observed configuration has no value there, or
    one that differs beyond case, whatever the other fields and the
    auto-swap target are. *)
Theorem X11_site_config_diff_detects (a : auto_swap) (sc ec : settings)
    (k : string) :
  k ∈ site_config_updatable_frameworks →
  Py.truthy_opt (sc !! k) = true →
  Py.truthy_opt (ec !! k) = false
  ∨ Py.upper <$> ec !! k ≠ Py.upper <$> sc !! k →
  is_site_config_changed a sc ec = true.
Proof.
  intros Hk Hsc Hec. unfold is_site_config_changed.
  by rewrite (updatable_frameworks_loop_true sc ec _ k Hk Hsc Hec).
Qed.

Lemma X11_site_config_diff_detects_witness :
  let sc : settings := {["php_version" := "7.0"]} in
  "php_version" ∈ site_config_updatable_frameworks
  ∧ Py.truthy_opt (sc !! "php_version") = true
  ∧ Py.truthy_opt ((∅ : settings) !! "php_version") = false
  ∧ is_site_config_changed AutoSwapNone sc ∅ = true.
Proof.
  intros sc.
  assert ("php_version" ∈ site_config_updatable_frameworks) as Hk
    by (unfold site_config_updatable_frameworks; set_solver).
  assert (Py.truthy_opt (sc !! "php_version") = true) as Hsc
    by (vm_compute; reflexivity).
  assert (Py.truthy_opt ((∅ : settings) !! "php_version") = false) as Hec
    by reflexivity.
  split; [exact Hk|]. split; [exact Hsc|]. split; [exact Hec|].
  exact (X11_site_config_diff_detects AutoSwapNone sc ∅ "php_version"
           Hk Hsc (or_introl Hec)).
Defined.

(** ** The framework list *)


Section Frameworks.

Variable env : remote.



(** X13: a list of more than one framework that names java fails with
    "Java is mutually exclusive", for a linux and for a windows parent,
    whatever the other entries are, and nothing is written. *)
Theorem X13_java_is_exclusive (fxs : list framework) (s : self_state) :
  (1 < length fxs)%nat →
  (∃ fx, fx ∈ fxs ∧ fx_name fx = "java") →
  normalize_frameworks env fxs s = (Stop (Failed JavaMutuallyExclusive), s).
Proof.
  intros Hlen (fx & Hin & Hname). unfold normalize_frameworks.
  assert ((1 <? length fxs)%nat
          && existsb (λ f, String.eqb (fx_name f) "java") fxs = true) as ->.
  { apply andb_true_iff. split; [by apply Nat.ltb_lt|].
    apply existsb_exists. exists fx. split; [by apply list_elem_of_In|].
    by apply String.eqb_eq. }
  reflexivity.
Qed.




End Frameworks.


Lemma X13_java_is_exclusive_witness :
  let env := sample_remote false None in
  let s := initial_state (sample_module Present None false Started None false) in
  (1 < length [php_7; java_8])%nat
  ∧ (∃ fx, fx ∈ [php_7; java_8] ∧ fx_name fx = "java")
  ∧ normalize_frameworks env [php_7; java_8] s
    = (Stop (Failed JavaMutuallyExclusive), s).
Proof.
  intros env s.
  assert (1 < length [php_7; java_8])%nat as Hlen by (simpl; lia).
  assert (∃ fx, fx ∈ [php_7; java_8] ∧ fx_name fx = "java") as Hjava.
  { exists java_8. split; [|reflexivity]. right. left. }
  split; [exact Hlen|]. split; [exact Hjava|].
  exact (X13_java_is_exclusive env [php_7; java_8] s Hlen Hjava).
Defined.



(** ** The framework list of a windows parent *)










(** ** The container settings *)

(** X18: the container settings always normalise, without a call.  The
    descriptor becomes [DOCKER|] followed by the registry url and a slash
    when a url is given, and by the image name.  Each of the three
    [DOCKER_REGISTRY_SERVER_*] settings is set from its field when the
    field is given (the url behind [https://]) and left as it was
    otherwise; no other application setting is touched. *)
Theorem X18_container_settings (c : container) (s : self_state) :
  ∃ s', normalize_container c s = (Ok tt, s')
    ∧ s_calls s' = s_calls s
    ∧ s_site_config s' !! "linux_fx_version"
      = Some ("DOCKER|"
              ++ (if Py.truthy_opt (registry_server_url c)
                  then default "" (registry_server_url c) ++ "/" else "")
              ++ container_name c)
    ∧ s_app_settings s' !! "DOCKER_REGISTRY_SERVER_URL"
      = (if Py.truthy_opt (registry_server_url c)
         then Some ("https://" ++ default "" (registry_server_url c))
         else s_app_settings s !! "DOCKER_REGISTRY_SERVER_URL")
    ∧ s_app_settings s' !! "DOCKER_REGISTRY_SERVER_USERNAME"
      = (if Py.truthy_opt (registry_server_user c)
         then registry_server_user c
         else s_app_settings s !! "DOCKER_REGISTRY_SERVER_USERNAME")
    ∧ s_app_settings s' !! "DOCKER_REGISTRY_SERVER_PASSWORD"
      = (if Py.truthy_opt (registry_server_password c)
         then registry_server_password c
         else s_app_settings s !! "DOCKER_REGISTRY_SERVER_PASSWORD")
    ∧ ∀ k, k ∉ docker_keys → s_app_settings s' !! k = s_app_settings s !! k.
Proof.
  unfold normalize_container.
  destruct c as [nm [url|] [user|] [pw|]]; simpl;
    repeat match goal with
           | |- context [Py.truthy ?x] => destruct (Py.truthy x)
           end;
    eexists; (split; [reflexivity|]); simpl;
    (split; [done|]); (split; [apply lookup_insert_eq|]);
    repeat split;
    try (intros k Hk; unfold docker_keys in Hk;
         rewrite ?lookup_insert_ne by set_solver; done);
    rewrite ?lookup_insert_eq, ?lookup_insert_ne by done;
    rewrite ?lookup_insert_eq; done.
Qed.

(** ** The orchestrator: lookups *)

Section Orchestrator.

Variable update_tags :
  option settings → option settings → bool * option settings.
Variable self : module.
Variable env : remote.

Lemma reconcile_looked_up l :
  resource_group_location env = Some l →
  webapp env = true →
  reconcile update_tags self env (initial_state self) =
  (to_be_updated ←
     match state self with
     | Present => present update_tags self env (slot env)
     | Absent => absent self env (slot env)
     end;
   response ← create_or_update self env to_be_updated;
   mret (match response with
         | Some r => Some r
         | None => slot env
         end)) (looked_up self l).
Proof.
  intros Hrg Hweb.
  unfold reconcile, get_resource_group, get_webapp, get_slot, looked_up.
  rewrite Hrg, Hweb.
  cbv [mbind M_bind mret M_ret issue modify get when negb fail].
  cbn [s_location add_call initial_state].
  by destruct (Py.truthy_opt (location self)).
Qed.

Lemma looked_up_calls l : s_calls (looked_up self l) = lookups.
Proof. unfold looked_up. by destruct (negb _). Qed.

Lemma looked_up_changed l : s_changed (looked_up self l) = false.
Proof. unfold looked_up. by destruct (negb _). Qed.


Lemma exec_module_stop w :
  (reconcile update_tags self env (initial_state self)).1 = Stop w →
  exec_module update_tags self env =
  (Stop w, (reconcile update_tags self env (initial_state self)).2).
Proof.
  unfold exec_module, exec_module_body. cbv [mbind M_bind].
  destruct (reconcile update_tags self env (initial_state self)) as [r s1].
  simpl. by intros ->.
Qed.

End Orchestrator.

(** X19: when the parent web app does not exist the invocation fails
    right after the second lookup: the slot is not looked up, nothing is
    changed, whatever was asked for. *)
Theorem X19_missing_web_app
    (update_tags : option settings → option settings → bool * option settings)
    (self : module) (env : remote) :
  is_Some (resource_group_location env) →
  webapp env = false →
  ∃ s, exec_module update_tags self env = (Stop (Failed WebAppDoesNotExist), s)
       ∧ s_calls s = [GetResourceGroup; GetWebApp]
       ∧ s_changed s = false.
Proof.
  intros [l Hrg] Hweb.
  unfold exec_module, exec_module_body, reconcile, get_resource_group,
    get_webapp.
  rewrite Hrg, Hweb.
  cbv [mbind M_bind mret M_ret issue modify get when negb fail].
  cbn [s_location add_call initial_state].
  destruct (Py.truthy_opt (location self)); eexists; (split; [reflexivity|done]).
Qed.

Lemma X19_missing_web_app_witness :
  let self := sample_module Present None false Started None false in
  let env :=
    {| resource_group_location := Some "westus"; is_linux := false;
       old_plan_is_linux := false; webapp := false; slot := None;
       configuration := None; application_settings := None;
       created_slot := None; cloud_error := λ _, false |} in
  is_Some (resource_group_location env)
  ∧ webapp env = false
  ∧ ∃ s, exec_module keep_tags self env = (Stop (Failed WebAppDoesNotExist), s)
         ∧ s_calls s = [GetResourceGroup; GetWebApp]
         ∧ s_changed s = false.
Proof.
  intros self env.
  assert (is_Some (resource_group_location env)) as Hrg
    by (exists "westus"; reflexivity).
  split; [exact Hrg|]. split; [reflexivity|].
  exact (X19_missing_web_app keep_tags self env Hrg eq_refl).
Defined.

(** ** The orchestrator: normalisation writes the configuration only *)

Lemma same_but_config_refl s : same_but_config s s.
Proof. by repeat split. Qed.

Ltac frame :=
  cbv beta in *;
  repeat match goal with
         | H : same_but_config _ _ |- _ =>
             destruct H as (? & ? & ? & ? & ? & ? & ? & ?)
         end;
  unfold same_but_config; simpl; repeat split; try done; try congruence.

Lemma normalize_frameworks_frame env fxs s :
  wp (normalize_frameworks env fxs) (λ _, same_but_config s)
    (λ w s', same_but_config s s'
             ∧ ∃ f, w = Failed f ∧ is_validation_error f = true) s.
Proof.
  unfold normalize_frameworks, linux_framework.
  wp_steps; try (simpl in *; discriminate);
    try (split; [frame|eexists; split; reflexivity]);
    try (by frame).
  apply (wp_for_each (same_but_config s)); [|apply same_but_config_refl].
  intros fx s' Hs'. unfold windows_framework.
  wp_steps; try (split; [frame|eexists; split; reflexivity]); by frame.
Qed.

Lemma normalize_container_frame c s :
  wp (normalize_container c) (λ _, same_but_config s) (λ _ _, False) s.
Proof. unfold normalize_container. wp_steps; by frame. Qed.

Section Create.

Variable update_tags :
  option settings → option settings → bool * option settings.
Variable self : module.
Variable env : remote.


End Create.



(** ** The orchestrator: create, update, delete *)

(** Reads of the state through the writes, in the goal and the
    hypotheses. *)
Ltac proj_simpl :=
  cbn [s_location s_site_config s_site_app_settings s_app_settings
       s_site_tags s_app_settings_strDic s_to_do s_changed s_id s_calls
       set_location set_site_config set_site_app_settings set_app_setting
       set_site_tags set_app_settings_strDic set_to_do set_changed set_id
       add_call fst snd] in *.

Section Paths.

Variable update_tags :
  option settings → option settings → bool * option settings.
Variable self : module.
Variable env : remote.


Lemma looked_up_to_do l : s_to_do (looked_up self l) = NoAction.
Proof. unfold looked_up. by destruct (negb _). Qed.

Lemma looked_up_site_config l :
  s_site_config (looked_up self l) = s_site_config (initial_state self).
Proof. unfold looked_up. by destruct (negb _). Qed.

Lemma looked_up_app_settings l :
  s_app_settings (looked_up self l) = s_app_settings (initial_state self).
Proof. unfold looked_up. by destruct (negb _). Qed.

Lemma initial_linux_fx_version :
  s_site_config (initial_state self) !! "linux_fx_version" = None.
Proof.
  simpl. destruct (scm_type self); [by apply lookup_singleton_ne|done].
Qed.

(** [exec_module] in terms of its two halves. *)
Lemma exec_module_unfold :
  exec_module update_tags self env =
  match reconcile update_tags self env (initial_state self) with
  | (Ok sl, s1) => adjust self env sl s1
  | (Stop w, s1) => (Stop w, s1)
  end.
Proof. reflexivity. Qed.

(** The branch of the existing slot reads the configuration and then
    raises on [self.slot], whatever the answers of the gateway are. *)
Lemma prepare_update_raises old s :
  wp (prepare_update update_tags self env old) (λ _ _, False)
    (λ w s', w = Raised AttributeError
             ∧ s_calls s' = (s_calls s ++ [GetConfigurationSlot])%list
             ∧ s_changed s' = s_changed s) s.
Proof.
  unfold prepare_update, get_configuration, list_app_settings, self_slot.
  wp_steps; by proj_simpl.
Qed.

(** The whole [present] branch on an existing slot: a failure of the
    framework checks, which needs a framework list, or that exception. *)
Lemma present_existing_stops old s :
  wp (present update_tags self env (Some old)) (λ _ _, False)
    (λ w s',
       s_changed s' = s_changed s
       ∧ ((∃ f, w = Failed f ∧ is_validation_error f = true
                ∧ s_calls s' = s_calls s ∧ frameworks self ≠ None)
          ∨ (w = Raised AttributeError
             ∧ s_calls s' = (s_calls s ++ [GetConfigurationSlot])%list))) s.
Proof.
  assert (∀ s1, same_but_config s s1 →
            wp (match container_settings self with
                | Some c => normalize_container c
                | None => mret tt
                end;; prepare_update update_tags self env old)
              (λ _ _, False)
              (λ w s', s_changed s' = s_changed s
                       ∧ w = Raised AttributeError
                       ∧ s_calls s'
                         = (s_calls s ++ [GetConfigurationSlot])%list) s1)
    as Htail.
  { intros s1 Hs1. apply wp_bind.
    apply wp_mono with
      (Q := λ _, same_but_config s) (E := λ _ _, False); [| |done].
    - destruct (container_settings self) as [c|]; [|by apply wp_ret].
      eapply wp_mono; [apply normalize_container_frame| |done].
      intros ? s2 Hs2. by frame.
    - intros ? s2 (_ & _ & _ & _ & _ & Hch2 & _ & Hc2).
      eapply wp_mono; [apply prepare_update_raises|done|].
      intros w s3 (-> & Hc3 & Hch3). split; [congruence|].
      split; [done|]. by rewrite Hc3, Hc2. }
  unfold present. apply wp_bind.
  destruct (frameworks self) as [[|fx fxs]|] eqn:Hfx.
  - apply wp_ret. eapply wp_mono;
      [apply Htail, same_but_config_refl|done|].
    intros w s' (? & ? & ?). split; [done|]. by right.
  - eapply wp_mono; [apply normalize_frameworks_frame| |].
    + intros ? s1 Hs1. eapply wp_mono; [by apply Htail|done|].
      intros w s' (? & ? & ?). split; [done|]. by right.
    + intros w s' ((_ & _ & _ & _ & _ & Hch1 & _ & Hc1) & f & -> & Hf).
      split; [done|]. left. by exists f.
  - apply wp_ret. eapply wp_mono;
      [apply Htail, same_but_config_refl|done|].
    intros w s' (? & ? & ?). split; [done|]. by right.
Qed.

(** An invocation with [state=present] that finds the slot never gets to
    the create-or-update call. *)
Lemma exec_module_existing_stops l old :
  state self = Present →
  resource_group_location env = Some l →
  webapp env = true →
  slot env = Some old →
  ∃ w s,
    exec_module update_tags self env = (Stop w, s)
    ∧ s_changed s = false
    ∧ ((∃ f, w = Failed f ∧ is_validation_error f = true
             ∧ s_calls s = lookups ∧ frameworks self ≠ None)
       ∨ (w = Raised AttributeError
          ∧ s_calls s = (lookups ++ [GetConfigurationSlot])%list)).
Proof.
  intros Hstate Hrg Hweb Hslot.
  rewrite exec_module_unfold.
  rewrite (reconcile_looked_up update_tags self env l Hrg Hweb).
  rewrite Hstate, Hslot.
  pose proof (looked_up_calls self l) as Hcalls.
  pose proof (looked_up_changed self l) as Hch.
  set (s0 := looked_up self l) in *.
  match goal with
  | |- context [match ?c s0 with _ => _ end] =>
      assert (wp c (λ _ _, False)
                (λ w s',
                   s_changed s' = false
                   ∧ ((∃ f, w = Failed f ∧ is_validation_error f = true
                            ∧ s_calls s' = lookups
                            ∧ frameworks self ≠ None)
                      ∨ (w = Raised AttributeError
                         ∧ s_calls s'
                           = (lookups ++ [GetConfigurationSlot])%list)))
                s0) as Hwp;
      [|unfold wp in Hwp; destruct (c s0) as [[sl|w] s']; [done|]]
  end.
  { apply wp_bind. eapply wp_mono; [apply present_existing_stops|done|].
    intros w s' (Hch' & H). split; [congruence|].
    destruct H as [(f & -> & Hf & Hc & Hfx)|(-> & Hc)].
    - left. exists f. repeat split; try done. congruence.
    - right. split; [done|]. by rewrite Hc, Hcalls. }
  by exists w, s'.
Qed.










End Paths.



(** X24: removing an existing slot.  With [state=absent], outside check
    mode, the delete call succeeding and no swap asked for, the invocation
    goes through with [changed = True]; the lifecycle step still works on
    the record of the slot just deleted, so the delete call is followed by
    the call of [app_state] unless that record already reads the state
    asked for. *)
Theorem X24_absent_then_lifecycle
    (update_tags : option settings → option settings → bool * option settings)
    (self : module) (env : remote) (l : string) (old : slot_record) :
  state self = Absent →
  check_mode self = false →
  swap self = None →
  resource_group_location env = Some l →
  webapp env = true →
  slot env = Some old →
  cloud_error env DeleteSlot = false →
  ∃ s,
    exec_module update_tags self env = (Ok tt, s)
    ∧ s_changed s = true
    ∧ s_calls s =
      (lookups ++ DeleteSlot ::
         (if needs_state_change self old
          then [state_call (app_state self)] else []))%list.
Proof.
  intros Hstate Hcheck Hswap Hrg Hweb Hslot Hdel.
  rewrite exec_module_unfold.
  rewrite (reconcile_looked_up update_tags self env l Hrg Hweb).
  rewrite Hstate, Hslot.
  pose proof (looked_up_calls self l) as Hcalls.
  unfold absent, delete_slot, create_or_update, adjust, adjust_swap.
  rewrite Hcheck, Hdel, Hswap.
  cbv [mbind M_bind mret M_ret modify get when issue].
  rewrite adjust_state_run by done.
  destruct (needs_state_change self old);
    eexists; (split; [reflexivity|]); proj_simpl;
    rewrite Hcalls, <- ?app_assoc; done.
Qed.

Lemma X24_absent_then_lifecycle_witness :
  let self := sample_module Absent None false Stopped None false in
  let env := sample_remote false (Some running_slot) in
  state self = Absent ∧ check_mode self = false ∧ swap self = None
  ∧ resource_group_location env = Some "westus"
  ∧ webapp env = true ∧ slot env = Some running_slot
  ∧ cloud_error env DeleteSlot = false
  ∧ ∃ s, exec_module keep_tags self env = (Ok tt, s)
         ∧ s_calls s = (lookups ++ [DeleteSlot; StopSlot])%list.
Proof.
  intros self env.
  destruct (X24_absent_then_lifecycle keep_tags self env "westus" running_slot
              eq_refl eq_refl eq_refl eq_refl eq_refl eq_refl eq_refl)
    as (s & Hrun & _ & Hcalls).
  do 7 (split; [reflexivity|]). exists s. split; [exact Hrun|exact Hcalls].
Defined.





(** X27: a delete call that the gateway refuses fails the invocation
    right there, with [changed] already [True] and no call behind it. *)
Theorem X27_delete_refused
    (update_tags : option settings → option settings → bool * option settings)
    (self : module) (env : remote) (l : string) (old : slot_record) :
  state self = Absent →
  check_mode self = false →
  resource_group_location env = Some l →
  webapp env = true →
  slot env = Some old →
  cloud_error env DeleteSlot = true →
  ∃ s,
    exec_module update_tags self env = (Stop (Failed ErrorDeletingSlot), s)
    ∧ s_changed s = true
    ∧ s_calls s = (lookups ++ [DeleteSlot])%list.
Proof.
  intros Hstate Hcheck Hrg Hweb Hslot Hdel.
  rewrite exec_module_unfold.
  rewrite (reconcile_looked_up update_tags self env l Hrg Hweb).
  rewrite Hstate, Hslot.
  pose proof (looked_up_calls self l) as Hcalls.
  unfold absent, delete_slot.
  rewrite Hcheck, Hdel.
  cbv [mbind M_bind mret M_ret modify get when issue fail].
  eexists. split; [reflexivity|]. proj_simpl. by rewrite Hcalls.
Qed.

Lemma X27_delete_refused_witness :
  let self := sample_module Absent None false Started None false in
  let env :=
    {| resource_group_location := Some "westus"; is_linux := false;
       old_plan_is_linux := false; webapp := true;
       slot := Some running_slot;
       configuration := None; application_settings := None;
       created_slot := None; cloud_error := λ _, true |} in
  ∃ s,
    exec_module keep_tags self env = (Stop (Failed ErrorDeletingSlot), s)
    ∧ s_changed s = true
    ∧ s_calls s = (lookups ++ [DeleteSlot])%list.
Proof.
  intros self env.
  exact (X27_delete_refused keep_tags self env "westus" running_slot
           eq_refl eq_refl eq_refl eq_refl eq_refl eq_refl).
Defined.

(** X28: a reset of the swap is two calls, the reset of the target (of
    production when no target is named) and then the reset of the slot
    itself; when the first raises the second is not issued. *)
Theorem X28_reset_is_two_calls (self : module) (env : remote)
    (sw : swap_request) (s : self_state) :
  action sw = Some Reset →
  let run := swap_slot self env sw s in
  if cloud_error env (reset_target sw)
  then run = (Stop (Failed FailedToSwap), add_call (reset_target sw) s)
  else
    s_calls run.2 =
    (s_calls s
     ++ [reset_target sw; ResetSlotConfigurationSlot (name self)])%list
    ∧ run.1 =
      if cloud_error env (ResetSlotConfigurationSlot (name self))
      then Stop (Failed FailedToSwap) else Ok tt.
Proof.
  intros Hact. unfold swap_slot, swap_call, reset_target. rewrite Hact.
  cbv [mbind M_bind mret M_ret modify issue fail].
  destruct (target_slot sw) as [t|];
    match goal with
    | |- context [cloud_error env ?c] => destruct (cloud_error env c)
    end; try reflexivity;
    destruct (cloud_error env (ResetSlotConfigurationSlot (name self)));
    proj_simpl; rewrite <- app_assoc; done.
Qed.

Lemma X28_reset_is_two_calls_witness :
  let sw := {| action := Some Reset; target_slot := None |} in
  let self := sample_module Present None false Started (Some sw) false in
  let env := sample_remote false (Some running_slot) in
  action sw = Some Reset
  ∧ s_calls (swap_slot self env sw (initial_state self)).2
    = [ResetProductionSlotConfig; ResetSlotConfigurationSlot "staging"].
Proof.
  intros sw self env.
  pose proof (X28_reset_is_two_calls self env sw (initial_state self) eq_refl)
    as H.
  split; [reflexivity|]. simpl in H. exact (proj1 H).
Defined.

(** ** The orchestrator: a slot that exists *)

(** C6, as the code stands.  The decision of lines 659 to 666 is never
    taken: with [state=present] on a slot that exists and the purge of the
    application settings asked for, whatever the desired settings and
    whatever the gateway would list, the invocation stops before line 659
    with [changed] still [False] and no call that writes; without a
    framework list it stops on the [AttributeError] of [self.slot] (line
    865), the read of the configuration being the one call after the
    lookups.  No update is performed. *)
Theorem C6_purge_update_not_reached
    (update_tags : option settings → option settings → bool * option settings)
    (self : module) (env : remote) (l : string) (old : slot_record) :
  purge_app_settings self = true →
  state self = Present →
  resource_group_location env = Some l →
  webapp env = true →
  slot env = Some old →
  ∃ w s,
    exec_module update_tags self env = (Stop w, s)
    ∧ s_changed s = false
    ∧ Forall (λ c, is_mutation c = false) (s_calls s)
    ∧ (frameworks self = None →
       w = Raised AttributeError
       ∧ s_calls s = (lookups ++ [GetConfigurationSlot])%list).
Proof.
  intros _ Hstate Hrg Hweb Hslot.
  destruct (exec_module_existing_stops update_tags self env l old
              Hstate Hrg Hweb Hslot)
    as (w & s & Hrun & Hch & [(f & -> & Hf & Hc & Hfx)|(-> & Hc)]);
    do 2 eexists; (split; [exact Hrun|]); (split; [done|]); rewrite Hc.
  - split; [by repeat constructor|done].
  - split; [by repeat constructor|done].
Qed.

Lemma C6_purge_update_not_reached_witness :
  let self :=
    {| name := "staging"; location := None; state := Present;
       frameworks := None; container_settings := None; scm_type := None;
       app_settings := Some {[ "colour" := "blue" ]};
       purge_app_settings := true; app_state := Started; swap := None;
       tags := None; auto_swap_slot_name := AutoSwapNone;
       check_mode := false |} in
  let env := sample_remote false (Some running_slot) in
  purge_app_settings self = true ∧ state self = Present
  ∧ resource_group_location env = Some "westus"
  ∧ webapp env = true ∧ slot env = Some running_slot
  ∧ ∃ s, exec_module keep_tags self env = (Stop (Raised AttributeError), s)
         ∧ s_changed s = false
         ∧ s_calls s = (lookups ++ [GetConfigurationSlot])%list.
Proof.
  intros self env.
  destruct (C6_purge_update_not_reached keep_tags self env "westus"
              running_slot eq_refl eq_refl eq_refl eq_refl eq_refl)
    as (w & s & Hrun & Hch & _ & Hnone).
  destruct (Hnone eq_refl) as [-> Hc].
  do 5 (split; [reflexivity|]). by exists s.
Defined.


